(** * Surgical waiting-list simulator: a model of [surgical_queue_simulator.py]

    The simulator runs two SimPy processes, [patient_arrivals] and
    [operating_room], over one shared patient queue.  The module keeps its
    collectors in global names that [run_simulation] rebinds at the start of
    every scenario.

    The model has three layers:
    - the Python module state: a store of list objects (lists are shared by
      reference between the globals, the two generators and the returned
      dictionary) plus the module's global names;
    - the SimPy kernel: an event queue ordered by (time, priority, event id),
      [schedule], and the [step] loop of [Environment.run];
    - the two generators as resumable state machines whose control points are
      the loop heads and the [yield] of the source.
    One machine step is one loop iteration of a generator, or one event popped
    by the scheduler when no generator is executing. *)

From stdpp Require Import gmap list strings sorting pretty.
From Stdlib Require Import ZArith Lia.

Local Open Scope Z_scope.
#[local] Set Warnings "-clear-no-such-hyp".

(** ** Python objects *)

(** List objects live in a store and are named by their allocation index. *)
Abbreviation loc := nat (only parsing).
Abbreviation pyheap := (list (list Z)) (only parsing).

(** [[]]: a fresh list object. *)
Definition new_list (h : pyheap) : loc * pyheap := (length h, h ++ [[]]).

Definition load (h : pyheap) (l : loc) : list Z := h !!! l.

(** [lst.append(x)] *)
Definition append (l : loc) (x : Z) (h : pyheap) : pyheap :=
  <[l := load h l ++ [x]]> h.

(** [lst.pop(0)] on a non-empty list: the caller reads the head first. *)
Definition pop0 (l : loc) (h : pyheap) : pyheap :=
  <[l := tail (load h l)]> h.

(** [range(n)] runs [n] times, and not at all for a negative [n]. *)
Definition range (n : Z) : nat := Z.to_nat n.

Inductive exn :=
| ValueError        (* Environment.run: until must be greater than now *)
| KeyError          (* dict.pop of a missing key *)
| RuntimeError.     (* empty schedule, or a generator resumed while executing *)

(** A number as NumPy hands it back: a Python int, or the float64 nearest to
    the exact quotient [total / count] computed by [np.mean]. *)
Inductive pynumber :=
| PyInt (z : Z)
| NpMean (total : Z) (count : nat).

(** ** Module globals *)

Record pystate := PyState {
  heap : pyheap;
  patient_arrival_times : gmap Z Z;
  patient_wait_times : loc;
  weekly_queue_lengths : loc;
  weekly_surgeries_performed : loc;
  next_patient_id : Z
}.

Definition set_heap (h : pyheap) (s : pystate) : pystate :=
  PyState h (patient_arrival_times s) (patient_wait_times s)
    (weekly_queue_lengths s) (weekly_surgeries_performed s) (next_patient_id s).

Definition set_patient_arrival_times (d : gmap Z Z) (s : pystate) : pystate :=
  PyState (heap s) d (patient_wait_times s)
    (weekly_queue_lengths s) (weekly_surgeries_performed s) (next_patient_id s).

Definition set_patient_wait_times (l : loc) (s : pystate) : pystate :=
  PyState (heap s) (patient_arrival_times s) l
    (weekly_queue_lengths s) (weekly_surgeries_performed s) (next_patient_id s).

Definition set_weekly_queue_lengths (l : loc) (s : pystate) : pystate :=
  PyState (heap s) (patient_arrival_times s) (patient_wait_times s)
    l (weekly_surgeries_performed s) (next_patient_id s).

Definition set_weekly_surgeries_performed (l : loc) (s : pystate) : pystate :=
  PyState (heap s) (patient_arrival_times s) (patient_wait_times s)
    (weekly_queue_lengths s) l (next_patient_id s).

Definition set_next_patient_id (n : Z) (s : pystate) : pystate :=
  PyState (heap s) (patient_arrival_times s) (patient_wait_times s)
    (weekly_queue_lengths s) (weekly_surgeries_performed s) n.

(** The module as it is right after import. *)
Definition module_init : pystate :=
  PyState [[]; []; []] ∅ 0%nat 1%nat 2%nat 0.

(** [get_patient_id]: bump the global counter and return it. *)
Definition get_patient_id (s : pystate) : Z * pystate :=
  let s' := set_next_patient_id (next_patient_id s + 1) s in
  (next_patient_id s', s').

(** ** The SimPy kernel *)

Inductive process := Patient_arrivals | Operating_room.

Inductive callback :=
| Resume (p : process)     (* Process._resume *)
| StopSimulation.          (* StopSimulation.callback of the until event *)

Definition URGENT : Z := 0.
Definition NORMAL : Z := 1.

Record event := Event {
  ev_time : Z;
  ev_priority : Z;
  ev_eid : Z;
  ev_callback : callback
}.

(** The queue holds tuples (time, priority, eid, event), compared as tuples;
    event ids are unique, so the comparison never reaches the event. *)
Definition event_lt (a b : event) : bool :=
  (ev_time a <? ev_time b)
  || ((ev_time a =? ev_time b)
      && ((ev_priority a <? ev_priority b)
          || ((ev_priority a =? ev_priority b) && (ev_eid a <? ev_eid b)))).

(** [heapq] is modelled by what it guarantees: [heappop] yields the least
    tuple.  The queue is kept sorted, and [heappop] takes its head. *)
Fixpoint heappush (e : event) (q : list event) : list event :=
  match q with
  | [] => [e]
  | x :: q' => if event_lt e x then e :: x :: q' else x :: heappush e q'
  end.

Record Environment := Env {
  now : Z;
  eid : Z;
  queue : list event
}.

(** [Environment.schedule(event, priority, delay)] *)
Definition schedule (cb : callback) (priority delay : Z) (e : Environment)
  : Environment :=
  Env (now e) (eid e + 1)
      (heappush (Event (now e + delay) priority (eid e) cb) (queue e)).

(** ** The two generators *)

(** Control points of [patient_arrivals]. *)
Inductive arrivals_pc :=
| A_created                (* generator object made, body not entered *)
| A_backlog (i : nat)      (* initial-queue loop, [i] iterations to go *)
| A_batch (i : nat)        (* weekly batch loop, [i] iterations to go *)
| A_yield.                 (* suspended at [yield env.timeout(7)] *)

(** Control points of [operating_room]. *)
Inductive surgery_pc :=
| O_created
| O_slots (i : nat) (surgeries_this_week : Z)  (* slot loop, [i] to go *)
| O_record (surgeries_this_week : Z)           (* after the slot loop *)
| O_yield.

Record arrivals_frame := ArrivalsFrame {
  pa_avg_arrivals_per_week : Z;
  pa_initial_queue_size : Z;
  pa_patient_queue_list : loc;
  pa_pc : arrivals_pc
}.

Record surgery_frame := SurgeryFrame {
  or_slots_per_week : Z;
  or_patient_queue_list : loc;
  or_pc : surgery_pc
}.

Definition set_pa_pc (pc : arrivals_pc) (f : arrivals_frame) : arrivals_frame :=
  ArrivalsFrame (pa_avg_arrivals_per_week f) (pa_initial_queue_size f)
    (pa_patient_queue_list f) pc.

Definition set_or_pc (pc : surgery_pc) (f : surgery_frame) : surgery_frame :=
  SurgeryFrame (or_slots_per_week f) (or_patient_queue_list f) pc.

(** One pass through the body of either arrival loop:
    [p_id = get_patient_id(); patient_arrival_times[p_id] = arrival_time;
     patient_queue_list.append(p_id)]. *)
Definition enqueue_patient (arrival_time : Z) (q : loc) (s : pystate) : pystate :=
  let '(p_id, s1) := get_patient_id s in
  let s2 := set_patient_arrival_times
              (<[p_id := arrival_time]> (patient_arrival_times s1)) s1 in
  set_heap (append q p_id (heap s2)) s2.

(** One pass through the slot loop with [patient_id] at the head of the
    queue: pop it, pop its arrival time (KeyError when it has none), record
    the wait. *)
Definition serve_patient (t : Z) (q : loc) (patient_id : Z) (s : pystate)
  : option pystate :=
  let s1 := set_heap (pop0 q (heap s)) s in
  match patient_arrival_times s1 !! patient_id with
  | None => None
  | Some arrival_time =>
      let s2 := set_patient_arrival_times
                  (delete patient_id (patient_arrival_times s1)) s1 in
      let wait_time := t - arrival_time in
      Some (set_heap (append (patient_wait_times s2) wait_time (heap s2)) s2)
  end.

(** The end of a week in [operating_room]: both per-week records. *)
Definition record_week (surgeries_this_week : Z) (q : loc) (s : pystate)
  : pystate :=
  let h1 := append (weekly_surgeries_performed s) surgeries_this_week (heap s) in
  let h2 := append (weekly_queue_lengths s) (Z.of_nat (length (load h1 q))) h1 in
  set_heap h2 s.

(** ** The machine *)

Record config := Config {
  py : pystate;
  env : Environment;
  arrivals : arrivals_frame;
  surgery : surgery_frame;
  active : option process     (* the generator that is executing, if any *)
}.

Inductive status :=
| Running (c : config)
| Stopped (c : config)             (* StopSimulation reached [run] *)
| Raised (e : exn) (c : config).

(** [patient_arrivals] advances by one loop iteration. *)
Definition arrivals_step (c : config) : status :=
  let f := arrivals c in
  match pa_pc f with
  | A_backlog (S i) =>
      Running (Config (enqueue_patient 0 (pa_patient_queue_list f) (py c))
                 (env c) (set_pa_pc (A_backlog i) f) (surgery c) (active c))
  | A_backlog O =>
      Running (Config (py c) (env c)
                 (set_pa_pc (A_batch (range (pa_avg_arrivals_per_week f))) f)
                 (surgery c) (active c))
  | A_batch (S i) =>
      Running (Config (enqueue_patient (now (env c)) (pa_patient_queue_list f) (py c))
                 (env c) (set_pa_pc (A_batch i) f) (surgery c) (active c))
  | A_batch O =>
      Running (Config (py c)
                 (schedule (Resume Patient_arrivals) NORMAL 7 (env c))
                 (set_pa_pc A_yield f) (surgery c) None)
  | A_created | A_yield => Raised RuntimeError c
  end.

(** [operating_room] advances by one loop iteration. *)
Definition surgery_step (c : config) : status :=
  let f := surgery c in
  match or_pc f with
  | O_slots (S i) n =>
      match load (heap (py c)) (or_patient_queue_list f) with
      | patient_id :: _ =>
          match serve_patient (now (env c)) (or_patient_queue_list f)
                  patient_id (py c) with
          | Some s =>
              Running (Config s (env c) (arrivals c)
                         (set_or_pc (O_slots i (n + 1)) f) (active c))
          | None => Raised KeyError c
          end
      | [] =>
          Running (Config (py c) (env c) (arrivals c)
                     (set_or_pc (O_record n) f) (active c))
      end
  | O_slots O n =>
      Running (Config (py c) (env c) (arrivals c)
                 (set_or_pc (O_record n) f) (active c))
  | O_record n =>
      Running (Config (record_week n (or_patient_queue_list f) (py c))
                 (schedule (Resume Operating_room) NORMAL 7 (env c))
                 (arrivals c) (set_or_pc O_yield f) None)
  | O_created | O_yield => Raised RuntimeError c
  end.

(** [Environment.step]: pop the least event, move the clock to it, run its
    callback.  Resuming a generator enters its body (first resumption) or
    continues after the [yield]: back to the head of [while True]. *)
Definition env_step (c : config) : status :=
  match queue (env c) with
  | [] => Raised RuntimeError c
  | ev :: rest =>
      let e := Env (ev_time ev) (eid (env c)) rest in
      match ev_callback ev with
      | StopSimulation =>
          Stopped (Config (py c) e (arrivals c) (surgery c) None)
      | Resume Patient_arrivals =>
          let f := arrivals c in
          match pa_pc f with
          | A_created =>
              Running (Config (py c) e
                         (set_pa_pc (A_backlog (range (pa_initial_queue_size f))) f)
                         (surgery c) (Some Patient_arrivals))
          | A_yield =>
              Running (Config (py c) e
                         (set_pa_pc (A_batch (range (pa_avg_arrivals_per_week f))) f)
                         (surgery c) (Some Patient_arrivals))
          | _ => Raised RuntimeError c
          end
      | Resume Operating_room =>
          let f := surgery c in
          match or_pc f with
          | O_created | O_yield =>
              Running (Config (py c) e (arrivals c)
                         (set_or_pc (O_slots (range (or_slots_per_week f)) 0) f)
                         (Some Operating_room))
          | _ => Raised RuntimeError c
          end
      end
  end.

Definition mstep (c : config) : status :=
  match active c with
  | Some Patient_arrivals => arrivals_step c
  | Some Operating_room => surgery_step c
  | None => env_step c
  end.

(** [n] machine steps; a stopped or failed run stays as it is. *)
Fixpoint steps (n : nat) (st : status) : status :=
  match n with
  | O => st
  | S n' =>
      match st with
      | Running c => steps n' (mstep c)
      | _ => st
      end
  end.

(** The event the scheduler is about to process, when it is its turn. *)
Definition next_event (st : status) : option (Z * callback) :=
  match st with
  | Running c =>
      match active c, queue (env c) with
      | None, ev :: _ => Some (ev_time ev, ev_callback ev)
      | _, _ => None
      end
  | _ => None
  end.

(** The events processed during the first [n] steps, in order. *)
Fixpoint history (n : nat) (st : status) : list (Z * callback) :=
  match n with
  | O => []
  | S n' =>
      match st with
      | Running c =>
          match next_event st with
          | Some l => l :: history n' (mstep c)
          | None => history n' (mstep c)
          end
      | _ => []
      end
  end.

(** ** [run_simulation] *)

Record results := Results {
  scenario_name : string;
  avg_wait_time : pynumber;
  final_queue_length : Z;
  total_surgeries : Z;
  res_weekly_queue_lengths : loc;
  res_weekly_surgeries : loc;
  res_wait_times : loc
}.

Inductive outcome :=
| Returned (r : results) (s : pystate)
| Failed (e : exn) (s : pystate)
| OutOfFuel.

Definition np_sum (l : list Z) : Z := foldr Z.add 0 l.

(** Lines 84-98 up to the first [step]: rebind the globals to fresh objects,
    make the queue and the environment, register both processes, and let
    [run] check and schedule its [until] event. *)
Definition setup (avg_arrivals_per_week initial_queue_size slots_per_week
                  simulation_duration_weeks : Z) (s : pystate) : status :=
  let s := set_patient_arrival_times ∅ s in
  let '(l, h) := new_list (heap s) in
  let s := set_patient_wait_times l (set_heap h s) in
  let '(l, h) := new_list (heap s) in
  let s := set_weekly_queue_lengths l (set_heap h s) in
  let '(l, h) := new_list (heap s) in
  let s := set_weekly_surgeries_performed l (set_heap h s) in
  let s := set_next_patient_id 0 s in
  let '(current_patient_queue, h) := new_list (heap s) in
  let s := set_heap h s in
  let e := Env 0 0 [] in
  let pa := ArrivalsFrame avg_arrivals_per_week initial_queue_size
              current_patient_queue A_created in
  let e := schedule (Resume Patient_arrivals) URGENT 0 e in
  let o := SurgeryFrame slots_per_week current_patient_queue O_created in
  let e := schedule (Resume Operating_room) URGENT 0 e in
  let simulation_duration_days := simulation_duration_weeks * 7 in
  let at_ := simulation_duration_days + 1 in
  if at_ <=? now e then Raised ValueError (Config s e pa o None)
  else Running (Config s (schedule StopSimulation URGENT (at_ - now e) e)
                  pa o None).

(** Lines 100-115: the returned dictionary.  It holds the three list objects
    themselves, not copies.  [np.sum] of a list of ints is their sum (its
    float zero for an empty list does not arise: a run that returns has made
    at least the record of time 0). *)
Definition prepare_results (initial_queue_size : Z) (name : string)
    (s : pystate) : results :=
  let waits := load (heap s) (patient_wait_times s) in
  let lengths := load (heap s) (weekly_queue_lengths s) in
  let surgeries := load (heap s) (weekly_surgeries_performed s) in
  Results name
    (match waits with
     | [] => PyInt 0
     | _ => NpMean (np_sum waits) (length waits)
     end)
    (match lengths with
     | [] => initial_queue_size
     | _ => List.last lengths 0
     end)
    (np_sum surgeries)
    (weekly_queue_lengths s) (weekly_surgeries_performed s)
    (patient_wait_times s).

(** [fuel] bounds the number of machine steps of [env.run]. *)
Definition run_simulation (fuel : nat)
    (avg_arrivals_per_week initial_queue_size slots_per_week
     simulation_duration_weeks : Z) (name : string) (s : pystate) : outcome :=
  match steps fuel (setup avg_arrivals_per_week initial_queue_size
                      slots_per_week simulation_duration_weeks s) with
  | Stopped c => Returned (prepare_results initial_queue_size name (py c)) (py c)
  | Raised e c => Failed e (py c)
  | Running _ => OutOfFuel
  end.

(** What a caller reads out of a returned dictionary. *)
Definition read_queue_lengths (r : results) (s : pystate) : list Z :=
  load (heap s) (res_weekly_queue_lengths r).
Definition read_surgeries (r : results) (s : pystate) : list Z :=
  load (heap s) (res_weekly_surgeries r).
Definition read_wait_times (r : results) (s : pystate) : list Z :=
  load (heap s) (res_wait_times r).

(** ** The state of one run, seen through the names that reach it

    During a run the four list objects made by [run_simulation] sit on top of
    whatever the store held before ([h0]).  A [view] is the contents of the
    run's objects. *)

Record view := View {
  v_times : gmap Z Z;        (* patient_arrival_times *)
  v_waits : list Z;          (* patient_wait_times *)
  v_lengths : list Z;        (* weekly_queue_lengths *)
  v_surgeries : list Z;      (* weekly_surgeries_performed *)
  v_queue : list Z;          (* current_patient_queue *)
  v_next : Z                 (* next_patient_id *)
}.

Definition py_of (h0 : pyheap) (v : view) : pystate :=
  PyState (h0 ++ [v_waits v; v_lengths v; v_surgeries v; v_queue v])
    (v_times v) (length h0) (length h0 + 1)%nat (length h0 + 2)%nat (v_next v).

Definition queue_loc (h0 : pyheap) : loc := (length h0 + 3)%nat.

Definition view0 : view := View ∅ [] [] [] [] 0.

(** [enqueue_patient] on views. *)
Definition enq (t : Z) (v : view) : view :=
  View (<[v_next v + 1 := t]> (v_times v)) (v_waits v) (v_lengths v)
    (v_surgeries v) (v_queue v ++ [v_next v + 1]) (v_next v + 1).

Fixpoint enq_n (t : Z) (i : nat) (v : view) : view :=
  match i with
  | O => v
  | S i' => enq_n t i' (enq t v)
  end.

(** [serve_patient] on views, for a head that has an arrival time. *)
Definition deq (t : Z) (patient_id arrival_time : Z) (v : view) : view :=
  View (delete patient_id (v_times v)) (v_waits v ++ [t - arrival_time])
    (v_lengths v) (v_surgeries v) (tail (v_queue v)) (v_next v).

(** The slot loop on views: at most [i] patients, fewer when the queue runs
    out.  Returns [surgeries_this_week] and the view. *)
Fixpoint drain (t : Z) (i : nat) (n : Z) (v : view) : Z * view :=
  match i with
  | O => (n, v)
  | S i' =>
      match v_queue v with
      | [] => (n, v)
      | patient_id :: _ =>
          match v_times v !! patient_id with
          | Some arrival_time =>
              drain t i' (n + 1) (deq t patient_id arrival_time v)
          | None => (n, v)
          end
      end
  end.

(** [record_week] on views. *)
Definition rec_week (n : Z) (v : view) : view :=
  View (v_times v) (v_waits v) (v_lengths v ++ [Z.of_nat (length (v_queue v))])
    (v_surgeries v ++ [n]) (v_queue v) (v_next v).

(** One period at clock value [t]: the batch, then the service round. *)
Definition week (a c : nat) (t : Z) (v : view) : view :=
  let '(n, v') := drain t c 0 (enq_n t a v) in rec_week n v'.

(** The view after the rounds at times 0, 7, ..., 7 * (k - 1). *)
Fixpoint after_weeks (a b c : nat) (k : nat) : view :=
  match k with
  | O => enq_n 0 b view0
  | S k' => week a c (7 * Z.of_nat k') (after_weeks a b c k')
  end.

(** The queue length after [k] rounds and the number served in round [k],
    as the recurrence of the specification. *)
Fixpoint qlen_after (a b c : Z) (k : nat) : Z :=
  match k with
  | O => b
  | S k' => qlen_after a b c k' + a - Z.min c (qlen_after a b c k' + a)
  end.

Definition served_in (a b c : Z) (k : nat) : Z :=
  Z.min c (qlen_after a b c k + a).

(** What holds of a view at every step of a run: identifiers in the queue
    are increasing (so distinct), already issued, and are exactly the keys of
    the arrival-time map. *)
Record good (v : view) : Prop := Good {
  good_sorted : StronglySorted Z.lt (v_queue v);
  good_issued : Forall (fun p_id => p_id <= v_next v) (v_queue v);
  good_times : dom (v_times v) = list_to_set (v_queue v)
}.

(** The configurations of a run started in a store [h0]. *)
Definition cfg (h0 : pyheap) (a b c : Z) (v : view) (e : Environment)
    (pa : arrivals_pc) (po : surgery_pc) (act : option process) : config :=
  Config (py_of h0 v) e (ArrivalsFrame a b (queue_loc h0) pa)
    (SurgeryFrame c (queue_loc h0) po) act.

Definition config_of (st : status) : config :=
  match st with
  | Running c | Stopped c | Raised _ c => c
  end.

(** [st'] is reached from [st], and the scheduler processed the events [l]
    on the way. *)
Definition reaches (st st' : status) (l : list (Z * callback)) : Prop :=
  exists n, steps n st = st' /\ history n st = l.

(** The event queue between two periods, after [k] service rounds: both
    generators wait for time [7 * k]; the until event of a run over [H] weeks
    sits at [H * 7 + 1]. *)
Definition until_event (H : Z) : event :=
  Event (H * 7 + 1) URGENT 2 StopSimulation.

Definition wake_events (k : Z) : list event :=
  [Event (7 * k) NORMAL (2 * k + 1) (Resume Patient_arrivals);
   Event (7 * k) NORMAL (2 * k + 2) (Resume Operating_room)].

Definition rest_env (H : Z) (k : nat) : Environment :=
  let K := Z.of_nat k in
  Env (7 * (K - 1)) (2 * K + 3)
    (if 7 * K <? H * 7 + 1 then wake_events K ++ [until_event H]
     else until_event H :: wake_events K).

(** The environment right after both processes were registered. *)
Definition env0 : Environment :=
  Env 0 2 [Event 0 URGENT 0 (Resume Patient_arrivals);
           Event 0 URGENT 1 (Resume Operating_room)].

(** The events of the first [k] periods: in each, the arrival process is
    resumed, then the service process. *)
Definition rounds (k : nat) : list (Z * callback) :=
  flat_map (fun j => [(7 * Z.of_nat j, Resume Patient_arrivals);
                      (7 * Z.of_nat j, Resume Operating_room)]) (seq 0 k).

(** The view when a run over [H] weeks stops: the rounds at 0, 7, ..., 7 * H
    are done. *)
Definition final_view (a b c H : Z) : view :=
  after_weeks (range a) (range b) (range c) (S (Z.to_nat H)).

(** ** What the claims speak about *)

(** The returned dictionary as [==] compares it: scalars by value, lists by
    their elements. *)
Definition contents (r : results) (s : pystate)
  : string * pynumber * Z * Z * list Z * list Z * list Z :=
  (scenario_name r, avg_wait_time r, final_queue_length r, total_surgeries r,
   read_queue_lengths r s, read_surgeries r s, read_wait_times r s).

(** The identifier returned by the call of [get_patient_id] that the next
    step makes, if it makes one: the two arrival loops are the call sites. *)
Definition issued (c : config) : option Z :=
  match active c, pa_pc (arrivals c) with
  | Some Patient_arrivals, (A_backlog (S _) | A_batch (S _)) =>
      Some (get_patient_id (py c)).1
  | _, _ => None
  end.

(** The identifiers returned during the first [n] steps, in call order. *)
Fixpoint issued_ids (n : nat) (st : status) : list Z :=
  match n with
  | O => []
  | S n' =>
      match st with
      | Running c => option_list (issued c) ++ issued_ids n' (mstep c)
      | _ => []
      end
  end.

(** ** The callers: [main] of both front ends, and [create_graphs] *)

(** [f"Perustilanne ({slots} slottia/vk)"] and
    [f"Interventio ({slots} slottia/vk)"]. *)
Definition baseline_name (slots : Z) : string :=
  "Perustilanne (" +:+ pretty slots +:+ " slottia/vk)".

Definition intervention_name (slots : Z) : string :=
  "Interventio (" +:+ pretty slots +:+ " slottia/vk)".

Inductive comparison :=
| Compared (baseline_results intervention_results : results) (s : pystate)
| ComparisonFailed (e : exn) (s : pystate)
| ComparisonOutOfFuel.

(** The two calls both [main]s make: the baseline scenario, then the
    intervention scenario in the module state the baseline left. *)
Definition run_scenarios (fuel : nat)
    (avg_arrivals_per_week slots_per_week_baseline initial_queue_size
     intervention_slots simulation_duration_weeks : Z) (s : pystate)
  : comparison :=
  match run_simulation fuel avg_arrivals_per_week initial_queue_size
          slots_per_week_baseline simulation_duration_weeks
          (baseline_name slots_per_week_baseline) s with
  | Returned baseline_results s1 =>
      match run_simulation fuel avg_arrivals_per_week initial_queue_size
              intervention_slots simulation_duration_weeks
              (intervention_name intervention_slots) s1 with
      | Returned intervention_results s2 =>
          Compared baseline_results intervention_results s2
      | Failed e s2 => ComparisonFailed e s2
      | OutOfFuel => ComparisonOutOfFuel
      end
  | Failed e s1 => ComparisonFailed e s1
  | OutOfFuel => ComparisonOutOfFuel
  end.

(** [web_simulator.main], lines 51-59 and 62-70: which message box rates a
    weekly capacity against the weekly arrivals. *)
Inductive summary :=
| St_warning      (* the capacity cannot keep up: the queue keeps growing *)
| St_success      (* the capacity covers the arrivals and drains the queue *)
| St_info.        (* the capacity just covers the arrivals *)

Definition capacity_summary (avg_arrivals_per_week slots : Z) : summary :=
  if avg_arrivals_per_week >? slots then St_warning
  else if avg_arrivals_per_week <? slots then St_success
  else St_info.

(** [web_simulator.main], lines 34-42: the two ways to enter the
    intervention. *)
Inductive intervention :=
| Add_slots (additional_slots : Z)      (* "Lisää leikkauspaikkoja" *)
| Change_slots (total_slots : Z).       (* "Muuta leikkauspaikkojen määrää" *)

Definition intervention_slots (slots_per_week_baseline : Z) (i : intervention)
  : Z :=
  match i with
  | Add_slots additional_slots => slots_per_week_baseline + additional_slots
  | Change_slots total_slots => total_slots
  end.

(** [np.arange(start, stop)] on integers. *)
Definition np_arange (start stop : Z) : list Z :=
  (fun i => start + Z.of_nat i) <$> seq 0 (Z.to_nat (stop - start)).

(** [np.cumsum] *)
Fixpoint cumsum_from (acc : Z) (l : list Z) : list Z :=
  match l with
  | [] => []
  | x :: l' => (acc + x) :: cumsum_from (acc + x) l'
  end.

Definition np_cumsum (l : list Z) : list Z := cumsum_from 0 l.

(** [ax.plot(x, y)]: Matplotlib draws the points (x[i], y[i]) and raises
    ValueError when the two series differ in length. *)
Definition plot (x y : list Z) : option (list (Z * Z)) :=
  if decide (length x = length y) then Some (zip x y) else None.

(** What [create_graphs] draws: two lines in each of the first three panels,
    two boxes of waiting times in the fourth. *)
Record figure := Figure {
  queue_length_lines : list (Z * Z) * list (Z * Z);
  weekly_surgery_lines : list (Z * Z) * list (Z * Z);
  cumulative_lines : list (Z * Z) * list (Z * Z);
  wait_boxes : list Z * list Z
}.

(** [create_graphs], lines 122-158; [None] is the ValueError of a [plot].
    Rendering and saving the image are left out. *)
Definition create_graphs (baseline_results intervention_results : results)
    (s : pystate) : option figure :=
  let weeks :=
    np_arange 1
      (Z.of_nat (length (read_queue_lengths baseline_results s)) + 1) in
  q1 ← plot weeks (read_queue_lengths baseline_results s);
  q2 ← plot weeks (read_queue_lengths intervention_results s);
  w1 ← plot weeks (read_surgeries baseline_results s);
  w2 ← plot weeks (read_surgeries intervention_results s);
  let cumulative_base := np_cumsum (read_surgeries baseline_results s) in
  let cumulative_int := np_cumsum (read_surgeries intervention_results s) in
  c1 ← plot weeks cumulative_base;
  c2 ← plot weeks cumulative_int;
  Some (Figure (q1, q2) (w1, w2) (c1, c2)
          (read_wait_times baseline_results s,
           read_wait_times intervention_results s)).

(** ** More invariants of views *)

(** A day count that is a whole number of weeks, between 0 and [m] weeks. *)
Definition whole_weeks (m : Z) (x : Z) : Prop :=
  exists j, x = 7 * j /\ 0 <= j <= m.

(** Arrival times and recorded waits are whole weeks, up to [m]. *)
Definition timed (m : Z) (v : view) : Prop :=
  map_Forall (fun _ arrival_time => whole_weeks m arrival_time) (v_times v)
  /\ Forall (whole_weeks m) (v_waits v).

(** The queue holds the identifiers after the served ones, in order: with
    [w] waits recorded it is [w + 1, ..., next_patient_id]. *)
Definition fifo (v : view) : Prop :=
  v_queue v
  = (fun j => Z.of_nat (length (v_waits v)) + 1 + Z.of_nat j)
      <$> seq 0 (length (v_queue v))
  /\ v_next v
     = Z.of_nat (length (v_waits v)) + Z.of_nat (length (v_queue v)).

(** * Proofs *)

(** ** The store *)

Section store.
Variables (h0 : pyheap) (x0 x1 x2 x3 : list Z).

Lemma load_run (i : nat) :
  load (h0 ++ [x0; x1; x2; x3]) (length h0 + i)%nat = [x0; x1; x2; x3] !!! i.
Proof.
  unfold load. rewrite lookup_total_app_r by lia.
  f_equal. lia.
Qed.

Lemma load_below (l : loc) (ext : pyheap) :
  (l < length h0)%nat -> load (h0 ++ ext) l = load h0 l.
Proof. intros Hl. unfold load. by rewrite lookup_total_app_l. Qed.

Lemma store_run (i : nat) (x : list Z) :
  <[(length h0 + i)%nat := x]> (h0 ++ [x0; x1; x2; x3])
  = h0 ++ <[i := x]> [x0; x1; x2; x3].
Proof. apply insert_app_r. Qed.

Lemma append_waits (z : Z) :
  append (length h0) z (h0 ++ [x0; x1; x2; x3])
  = h0 ++ [x0 ++ [z]; x1; x2; x3].
Proof.
  unfold append. replace (length h0) with (length h0 + 0)%nat by lia.
  by rewrite load_run, store_run.
Qed.

Lemma append_lengths (z : Z) :
  append (length h0 + 1)%nat z (h0 ++ [x0; x1; x2; x3])
  = h0 ++ [x0; x1 ++ [z]; x2; x3].
Proof. unfold append. by rewrite load_run, store_run. Qed.

Lemma append_surgeries (z : Z) :
  append (length h0 + 2)%nat z (h0 ++ [x0; x1; x2; x3])
  = h0 ++ [x0; x1; x2 ++ [z]; x3].
Proof. unfold append. by rewrite load_run, store_run. Qed.

Lemma append_queue (z : Z) :
  append (queue_loc h0) z (h0 ++ [x0; x1; x2; x3])
  = h0 ++ [x0; x1; x2; x3 ++ [z]].
Proof. unfold append, queue_loc. by rewrite load_run, store_run. Qed.

Lemma pop0_queue :
  pop0 (queue_loc h0) (h0 ++ [x0; x1; x2; x3])
  = h0 ++ [x0; x1; x2; tail x3].
Proof. unfold pop0, queue_loc. by rewrite load_run, store_run. Qed.

Lemma load_queue : load (h0 ++ [x0; x1; x2; x3]) (queue_loc h0) = x3.
Proof. unfold queue_loc. by rewrite load_run. Qed.

Lemma load_waits : load (h0 ++ [x0; x1; x2; x3]) (length h0) = x0.
Proof.
  replace (length h0) with (length h0 + 0)%nat by lia. by rewrite load_run.
Qed.

Lemma load_lengths : load (h0 ++ [x0; x1; x2; x3]) (length h0 + 1)%nat = x1.
Proof. by rewrite load_run. Qed.

Lemma load_surgeries : load (h0 ++ [x0; x1; x2; x3]) (length h0 + 2)%nat = x2.
Proof. by rewrite load_run. Qed.
End store.

(** ** The generators' loop bodies act on the view *)

Lemma load_queue_view h0 v :
  load (heap (py_of h0 v)) (queue_loc h0) = v_queue v.
Proof. apply load_queue. Qed.

Lemma enqueue_patient_view h0 t v :
  enqueue_patient t (queue_loc h0) (py_of h0 v) = py_of h0 (enq t v).
Proof.
  unfold enqueue_patient, get_patient_id, py_of, enq; simpl.
  unfold set_heap; simpl. by rewrite append_queue.
Qed.

Lemma serve_patient_view h0 t v patient_id arrival_time :
  v_times v !! patient_id = Some arrival_time ->
  serve_patient t (queue_loc h0) patient_id (py_of h0 v)
  = Some (py_of h0 (deq t patient_id arrival_time v)).
Proof.
  intros Ht. unfold serve_patient, py_of, deq; simpl. rewrite Ht.
  unfold set_heap; simpl. by rewrite pop0_queue, append_waits.
Qed.

Lemma serve_patient_missing h0 t v patient_id :
  v_times v !! patient_id = None ->
  serve_patient t (queue_loc h0) patient_id (py_of h0 v) = None.
Proof. intros Ht. unfold serve_patient, py_of; simpl. by rewrite Ht. Qed.

Lemma record_week_view h0 n v :
  record_week n (queue_loc h0) (py_of h0 v) = py_of h0 (rec_week n v).
Proof.
  unfold record_week, py_of, rec_week, set_heap; simpl.
  by rewrite append_surgeries, load_queue, append_lengths.
Qed.

(** ** Runs of the machine *)

#[local] Arguments py_of : simpl never.
#[local] Arguments load : simpl never.
#[local] Arguments queue_loc : simpl never.

Lemma steps_halted n st :
  (forall c, st <> Running c) -> steps n st = st.
Proof. intros H. destruct n, st; simpl; try done. by destruct (H c). Qed.

Lemma history_halted n st :
  (forall c, st <> Running c) -> history n st = [].
Proof. intros H. destruct n, st; simpl; try done. by destruct (H c). Qed.

Lemma steps_add n m st : steps (n + m) st = steps m (steps n st).
Proof.
  revert st. induction n as [|n IH]; intros st; simpl; [done|].
  destruct st; try (by rewrite steps_halted). apply IH.
Qed.

Lemma history_add n m st :
  history (n + m) st = history n st ++ history m (steps n st).
Proof.
  revert st. induction n as [|n IH]; intros st; simpl; [done|].
  destruct st as [c| |]; try (by rewrite history_halted).
  destruct (next_event (Running c)); simpl; by rewrite IH.
Qed.

Lemma reaches_refl st : reaches st st [].
Proof. by exists 0%nat. Qed.

Lemma reaches_trans st1 st2 st3 l1 l2 :
  reaches st1 st2 l1 -> reaches st2 st3 l2 -> reaches st1 st3 (l1 ++ l2).
Proof.
  intros (n & Hn & Hl) (m & Hm & Hk). exists (n + m)%nat.
  rewrite steps_add, history_add, Hn, Hm, Hl, Hk. done.
Qed.

Lemma reaches_silent st1 st2 st3 l :
  reaches st1 st2 [] -> reaches st2 st3 l -> reaches st1 st3 l.
Proof. intros H1 H2. apply (reaches_trans _ _ _ _ _ H1 H2). Qed.

Lemma reaches_step c :
  reaches (Running c) (mstep c) (option_list (next_event (Running c))).
Proof.
  exists 1%nat. simpl. split; [done|].
  by destruct (match active c with Some _ => _ | None => _ end).
Qed.

(** A generator that is executing takes its step without the scheduler. *)
Lemma reaches_gen_step c p st :
  active c = Some p -> mstep c = st -> reaches (Running c) st [].
Proof.
  intros Ha <-. pose proof (reaches_step c) as H.
  simpl in H. by rewrite Ha in H.
Qed.

(** The scheduler pops an event and its callback leads to [st]. *)
Lemma reaches_event c ev st st' l :
  active c = None -> queue (env c) = ev :: l ->
  mstep c = st -> reaches st st' [] ->
  reaches (Running c) st' [(ev_time ev, ev_callback ev)].
Proof.
  intros Ha Hq <- H. pose proof (reaches_step c) as H1.
  simpl in H1. rewrite Ha, Hq in H1. simpl in H1.
  apply (reaches_trans _ _ _ _ _ H1 H).
Qed.

(** Once the run has stopped or failed, more fuel changes nothing. *)
Lemma reaches_fuel st st' l :
  (forall c, st' <> Running c) -> reaches st st' l ->
  exists n, forall fuel, (n <= fuel)%nat ->
    steps fuel st = st' /\ history fuel st = l.
Proof.
  intros Hh (n & Hn & Hl). exists n. intros fuel Hf.
  replace fuel with (n + (fuel - n))%nat by lia.
  rewrite steps_add, history_add, Hn, Hl.
  by rewrite steps_halted, history_halted, app_nil_r.
Qed.

Section run.
Variables (h0 : pyheap) (a b c : Z).

Lemma backlog_loop i v e po :
  reaches (Running (cfg h0 a b c v e (A_backlog i) po (Some Patient_arrivals)))
          (Running (cfg h0 a b c (enq_n 0 i v) e (A_backlog 0) po (Some Patient_arrivals)))
          [].
Proof.
  revert v. induction i as [|i IH]; intros v; [apply reaches_refl|].
  eapply reaches_silent; [|apply IH].
  eapply reaches_gen_step; [done|].
  unfold mstep, arrivals_step, cfg; simpl.
  by rewrite enqueue_patient_view.
Qed.

Lemma batch_loop i v e po :
  reaches (Running (cfg h0 a b c v e (A_batch i) po (Some Patient_arrivals)))
          (Running (cfg h0 a b c (enq_n (now e) i v) e (A_batch 0) po
                      (Some Patient_arrivals)))
          [].
Proof.
  revert v. induction i as [|i IH]; intros v; [apply reaches_refl|].
  eapply reaches_silent; [|apply IH].
  eapply reaches_gen_step; [done|].
  unfold mstep, arrivals_step, cfg; simpl.
  by rewrite enqueue_patient_view.
Qed.

(** The invariant of the queue and the arrival-time map. *)
Lemma good_view0 : good view0.
Proof. split; simpl; [constructor|constructor|set_solver]. Qed.

Lemma good_enq t v : good v -> good (enq t v).
Proof.
  intros [Hs Hi Ht]. split; simpl.
  - apply StronglySorted_app; repeat split;
      [|done|repeat constructor].
    intros x y Hx ->%list_elem_of_singleton.
    rewrite Forall_forall in Hi. specialize (Hi x Hx). simpl in Hi. lia.
  - apply Forall_app; split; [|repeat constructor; lia].
    eapply Forall_impl; [exact Hi|]. simpl; intros; lia.
  - rewrite dom_insert_L, list_to_set_snoc_L, Ht. set_solver.
Qed.

Lemma good_enq_n t i v : good v -> good (enq_n t i v).
Proof. revert v. induction i; simpl; auto using good_enq. Qed.

Lemma good_head v patient_id q :
  good v -> v_queue v = patient_id :: q -> is_Some (v_times v !! patient_id).
Proof.
  intros [_ _ Ht] Hq. apply elem_of_dom. rewrite Ht, Hq. set_solver.
Qed.

Lemma good_deq t v patient_id arrival_time q :
  good v -> v_queue v = patient_id :: q ->
  good (deq t patient_id arrival_time v).
Proof.
  intros [Hs Hi Ht] Hq. rewrite Hq in *.
  apply StronglySorted_cons in Hs as [Hlt Hs].
  apply Forall_cons in Hi as [_ Hi].
  split; simpl; rewrite Hq; simpl; [done|done|].
  rewrite dom_delete_L, Ht. simpl.
  assert (patient_id ∉ q).
  { intros Hin. rewrite Forall_forall in Hlt. specialize (Hlt _ Hin). lia. }
  set_solver.
Qed.

Lemma good_drain t i n v : good v -> good (drain t i n v).2.
Proof.
  revert n v. induction i as [|i IH]; intros n v Hg; simpl; [done|].
  destruct (v_queue v) as [|p q] eqn:Hq; [done|].
  destruct (v_times v !! p) as [at_|] eqn:Hp; [|done].
  apply IH. by eapply good_deq.
Qed.

Lemma good_rec_week n v : good v -> good (rec_week n v).
Proof. by intros [? ? ?]. Qed.

Lemma slot_loop i n v e pa :
  good v ->
  reaches (Running (cfg h0 a b c v e pa (O_slots i n) (Some Operating_room)))
          (Running (cfg h0 a b c (drain (now e) i n v).2 e pa
                      (O_record (drain (now e) i n v).1)
                      (Some Operating_room)))
          [].
Proof.
  revert n v. induction i as [|i IH]; intros n v Hg.
  { eapply reaches_gen_step; done. }
  simpl. destruct (v_queue v) as [|p q] eqn:Hq.
  { eapply reaches_gen_step; [done|].
    unfold mstep, surgery_step, cfg; simpl.
    rewrite load_queue, Hq. done. }
  destruct (good_head _ _ _ Hg Hq) as [at_ Hp]. rewrite Hp.
  eapply reaches_silent; [|apply IH; by eapply good_deq].
  eapply reaches_gen_step; [done|].
  unfold mstep, surgery_step, cfg; simpl.
  rewrite load_queue, Hq.
  by rewrite (serve_patient_view _ _ _ _ _ Hp).
Qed.

(** The arrival process is resumed from its [yield]: one batch, then the
    next timeout. *)
Lemma arrivals_phase v t0 n t p e q po :
  reaches
    (Running (cfg h0 a b c v
                (Env t0 n (Event t p e (Resume Patient_arrivals) :: q))
                A_yield po None))
    (Running (cfg h0 a b c (enq_n t (range a) v)
                (Env t (n + 1)
                   (heappush (Event (t + 7) NORMAL n (Resume Patient_arrivals)) q))
                A_yield po None))
    [(t, Resume Patient_arrivals)].
Proof.
  eapply (reaches_event _ (Event t p e _)); [done..|].
  eapply reaches_silent; [apply batch_loop|].
  eapply reaches_gen_step; done.
Qed.

(** The arrival process is resumed for the first time: the initial queue,
    the first batch, then the timeout. *)
Lemma arrivals_first v t0 n t p e q po :
  reaches
    (Running (cfg h0 a b c v
                (Env t0 n (Event t p e (Resume Patient_arrivals) :: q))
                A_created po None))
    (Running (cfg h0 a b c (enq_n t (range a) (enq_n 0 (range b) v))
                (Env t (n + 1)
                   (heappush (Event (t + 7) NORMAL n (Resume Patient_arrivals)) q))
                A_yield po None))
    [(t, Resume Patient_arrivals)].
Proof.
  eapply (reaches_event _ (Event t p e _)); [done..|].
  eapply reaches_silent; [apply backlog_loop|].
  eapply reaches_silent; [eapply reaches_gen_step; done|].
  eapply reaches_silent; [apply batch_loop|].
  eapply reaches_gen_step; done.
Qed.

(** The service process is resumed: the slot loop, the two records, then
    the next timeout. *)
Lemma service_phase v t0 n t p e q pa po :
  good v -> po = O_created \/ po = O_yield ->
  reaches
    (Running (cfg h0 a b c v
                (Env t0 n (Event t p e (Resume Operating_room) :: q))
                pa po None))
    (Running (cfg h0 a b c
                (rec_week (drain t (range c) 0 v).1 (drain t (range c) 0 v).2)
                (Env t (n + 1)
                   (heappush (Event (t + 7) NORMAL n (Resume Operating_room)) q))
                pa O_yield None))
    [(t, Resume Operating_room)].
Proof.
  intros Hg Hpo.
  eapply (reaches_event _ (Event t p e _)
            (Running (cfg h0 a b c v (Env t n q) pa
                        (O_slots (range c) 0) (Some Operating_room))));
    [done|done|by destruct Hpo as [-> | ->]|].
  eapply reaches_silent; [by apply slot_loop|].
  eapply reaches_gen_step; [done|].
  unfold mstep, surgery_step, cfg; simpl.
  by rewrite record_week_view.
Qed.
End run.

(** ** The order of events *)

#[local] Arguments event_lt : simpl never.

Lemma event_lt_reflect x y :
  reflect (ev_time x < ev_time y
           \/ (ev_time x = ev_time y
               /\ (ev_priority x < ev_priority y
                   \/ (ev_priority x = ev_priority y /\ ev_eid x < ev_eid y))))
          (event_lt x y).
Proof.
  apply iff_reflect. unfold event_lt.
  rewrite !orb_true_iff, !andb_true_iff, !orb_true_iff, !andb_true_iff.
  rewrite !Z.ltb_lt, !Z.eqb_eq. done.
Qed.

Ltac order_events :=
  repeat (cbn [heappush];
          match goal with
          | |- context [event_lt ?x ?y] =>
              let E := fresh "E" in
              destruct (event_lt_reflect x y) as [E|E];
              cbn in E; unfold URGENT, NORMAL in E; try (exfalso; lia)
          end).

Lemma heappush_later t p n cb t' p' n' cb' q :
  t' < t ->
  heappush (Event t p n cb) (Event t' p' n' cb' :: q)
  = Event t' p' n' cb' :: heappush (Event t p n cb) q.
Proof. intros Ht. by order_events. Qed.

Lemma reaches_eq st st1 st2 l :
  reaches st st1 l -> st1 = st2 -> reaches st st2 l.
Proof. by intros H <-. Qed.

Lemma week_eq a c t v :
  week a c t v
  = rec_week (drain t c 0 (enq_n t a v)).1 (drain t c 0 (enq_n t a v)).2.
Proof. unfold week. by destruct (drain t c 0 (enq_n t a v)). Qed.

Lemma good_week a c t v : good v -> good (week a c t v).
Proof.
  intros Hg. rewrite week_eq.
  by apply good_rec_week, good_drain, good_enq_n.
Qed.

Lemma good_after_weeks a b c k : good (after_weeks a b c k).
Proof.
  induction k as [|k IH]; simpl.
  - apply good_enq_n, good_view0.
  - by apply good_week.
Qed.

Section periods.
Variables (h0 : pyheap) (a b c : Z).

(** One period between two rest points: the batch at time [t], the service
    round at time [t], and both timeouts for [t + 7]. *)
Lemma period v t0 n t p1 e1 p2 e2 q po :
  good v -> po = O_created \/ po = O_yield ->
  reaches
    (Running (cfg h0 a b c v
                (Env t0 n (Event t p1 e1 (Resume Patient_arrivals)
                           :: Event t p2 e2 (Resume Operating_room) :: q))
                A_yield po None))
    (Running (cfg h0 a b c (week (range a) (range c) t v)
                (Env t (n + 1 + 1)
                   (heappush (Event (t + 7) NORMAL (n + 1) (Resume Operating_room))
                      (heappush (Event (t + 7) NORMAL n (Resume Patient_arrivals))
                         q)))
                A_yield O_yield None))
    [(t, Resume Patient_arrivals); (t, Resume Operating_room)].
Proof.
  intros Hg Hpo.
  change [(t, Resume Patient_arrivals); (t, Resume Operating_room)]
    with ([(t, Resume Patient_arrivals)] ++ [(t, Resume Operating_room)]).
  eapply reaches_trans; [apply arrivals_phase|].
  rewrite heappush_later by lia. rewrite week_eq.
  apply service_phase; [by apply good_enq_n|done].
Qed.

(** The first period: the initial queue comes before the first batch. *)
Lemma first_period v t0 n t p1 e1 p2 e2 q po :
  good v -> po = O_created \/ po = O_yield ->
  reaches
    (Running (cfg h0 a b c v
                (Env t0 n (Event t p1 e1 (Resume Patient_arrivals)
                           :: Event t p2 e2 (Resume Operating_room) :: q))
                A_created po None))
    (Running (cfg h0 a b c
                (week (range a) (range c) t (enq_n 0 (range b) v))
                (Env t (n + 1 + 1)
                   (heappush (Event (t + 7) NORMAL (n + 1) (Resume Operating_room))
                      (heappush (Event (t + 7) NORMAL n (Resume Patient_arrivals))
                         q)))
                A_yield O_yield None))
    [(t, Resume Patient_arrivals); (t, Resume Operating_room)].
Proof.
  intros Hg Hpo.
  change [(t, Resume Patient_arrivals); (t, Resume Operating_room)]
    with ([(t, Resume Patient_arrivals)] ++ [(t, Resume Operating_room)]).
  eapply reaches_trans; [apply arrivals_first|].
  rewrite heappush_later by lia. rewrite week_eq.
  apply service_phase; [by apply good_enq_n, good_enq_n|done].
Qed.
End periods.

(** ** The whole run *)

Lemma setup_eq a b c H s :
  setup a b c H s =
  if H * 7 + 1 <=? 0
  then Raised ValueError (cfg (heap s) a b c view0 env0 A_created O_created None)
  else Running (cfg (heap s) a b c view0
                  (schedule StopSimulation URGENT (H * 7 + 1 - 0) env0)
                  A_created O_created None).
Proof.
  unfold setup, new_list, cfg, py_of, view0, queue_loc; simpl.
  rewrite !length_app; simpl. rewrite <- !app_assoc; simpl.
  rewrite <- !Nat.add_assoc; simpl.
  done.
Qed.

Lemma rounds_S k :
  rounds (S k) = rounds k ++ [(7 * Z.of_nat k, Resume Patient_arrivals);
                              (7 * Z.of_nat k, Resume Operating_room)].
Proof. unfold rounds. rewrite seq_S, flat_map_app. simpl. done. Qed.

Ltac same_state :=
  repeat match goal with
         | |- @eq Z _ _ => lia
         | |- @eq nat _ _ => lia
         | |- _ = _ => reflexivity
         | |- _ = _ => progress f_equal
         end.

Lemma rest_env_before H k :
  Z.of_nat k <= H ->
  rest_env H k
  = Env (7 * (Z.of_nat k - 1)) (2 * Z.of_nat k + 3)
      [Event (7 * Z.of_nat k) NORMAL (2 * Z.of_nat k + 1) (Resume Patient_arrivals);
       Event (7 * Z.of_nat k) NORMAL (2 * Z.of_nat k + 2) (Resume Operating_room);
       until_event H].
Proof.
  intros Hk. unfold rest_env, wake_events.
  by destruct (Z.ltb_spec (7 * Z.of_nat k) (H * 7 + 1)); [|lia].
Qed.

Lemma rest_env_last H k :
  H < Z.of_nat k ->
  rest_env H k
  = Env (7 * (Z.of_nat k - 1)) (2 * Z.of_nat k + 3)
      (until_event H :: wake_events (Z.of_nat k)).
Proof.
  intros Hk. unfold rest_env.
  by destruct (Z.ltb_spec (7 * Z.of_nat k) (H * 7 + 1)); [lia|].
Qed.

(** Both timeouts for the next period fall before or after the until event
    together. *)
Lemma rest_env_next H k t n :
  0 <= H -> t = 7 * Z.of_nat k -> n = 2 * Z.of_nat k + 3 ->
  Env t (n + 1 + 1)
    (heappush (Event (t + 7) NORMAL (n + 1) (Resume Operating_room))
       (heappush (Event (t + 7) NORMAL n (Resume Patient_arrivals))
          [until_event H]))
  = rest_env H (S k).
Proof.
  intros HH -> ->. unfold rest_env, wake_events, until_event.
  destruct (Z.ltb_spec (7 * Z.of_nat (S k)) (H * 7 + 1));
    order_events; simpl app; same_state.
Qed.

(** After [k + 1] rounds, [k <= H], the run rests between two periods. *)
Lemma run_to_rest a b c H s k :
  Z.of_nat k <= H ->
  reaches (setup a b c H s)
    (Running (cfg (heap s) a b c
                (after_weeks (range a) (range b) (range c) (S k))
                (rest_env H (S k)) A_yield O_yield None))
    (rounds (S k)).
Proof.
  induction k as [|k IH]; intros Hk.
  - rewrite setup_eq. destruct (Z.leb_spec (H * 7 + 1) 0) as [?|_]; [lia|].
    unfold schedule, env0; cbn [now eid queue]. order_events.
    eapply reaches_eq.
    { apply first_period; [apply good_view0|by left]. }
    rewrite <- (rest_env_next H 0 0 3) by lia.
    cbn [after_weeks]. unfold until_event. same_state.
  - rewrite rounds_S. eapply reaches_eq.
    { eapply reaches_trans; [apply IH; lia|].
      rewrite rest_env_before by lia.
      apply period; [apply good_after_weeks|by right]. }
    rewrite <- (rest_env_next H (S k) (7 * Z.of_nat (S k))
                  (2 * Z.of_nat (S k) + 3)) by lia.
    done.
Qed.

(** The until event is the next one after the round at [H * 7]. *)
Lemma run_to_stop a b c H s :
  0 <= H ->
  reaches (setup a b c H s)
    (Stopped (cfg (heap s) a b c
                (after_weeks (range a) (range b) (range c) (S (Z.to_nat H)))
                (Env (H * 7 + 1) (2 * (H + 1) + 3) (wake_events (H + 1)))
                A_yield O_yield None))
    (rounds (S (Z.to_nat H)) ++ [(H * 7 + 1, StopSimulation)]).
Proof.
  intros HH. eapply reaches_trans; [apply run_to_rest; lia|].
  rewrite rest_env_last by lia.
  eapply reaches_eq.
  { eapply (reaches_event _ (until_event H));
      [done|done|reflexivity|apply reaches_refl]. }
  unfold mstep, env_step, cfg. simpl. same_state.
Qed.

(** ** Counting on views *)

Lemma enq_n_queue t i v :
  v_queue (enq_n t i v)
  = v_queue v ++ ((fun j => v_next v + 1 + Z.of_nat j) <$> seq 0 i).
Proof.
  revert v. induction i as [|i IH]; intros v; simpl.
  - by rewrite app_nil_r.
  - rewrite IH. simpl. rewrite <- app_assoc. simpl. do 2 f_equal; [lia|].
    change (list_fmap nat Z ?f ?l) with (f <$> l).
    rewrite <- fmap_S_seq, <- list_fmap_compose.
    apply list_fmap_ext. intros _ j _. simpl. lia.
Qed.

Lemma enq_n_fields t i v :
  v_waits (enq_n t i v) = v_waits v
  /\ v_lengths (enq_n t i v) = v_lengths v
  /\ v_surgeries (enq_n t i v) = v_surgeries v
  /\ v_next (enq_n t i v) = v_next v + Z.of_nat i
  /\ length (v_queue (enq_n t i v)) = (length (v_queue v) + i)%nat.
Proof.
  revert v. induction i as [|i IH]; intros v; cbn [enq_n].
  - repeat split; try done; lia.
  - destruct (IH (enq t v)) as (-> & -> & -> & -> & ->).
    cbn [enq v_queue v_waits v_lengths v_surgeries v_next].
    rewrite length_app. cbn [length]. repeat split; try done; lia.
Qed.

Lemma drain_fields t i n v :
  good v ->
  let m := Z.min (Z.of_nat i) (Z.of_nat (length (v_queue v))) in
  (drain t i n v).1 = n + m
  /\ Z.of_nat (length (v_queue (drain t i n v).2))
     = Z.of_nat (length (v_queue v)) - m
  /\ Z.of_nat (length (v_waits (drain t i n v).2))
     = Z.of_nat (length (v_waits v)) + m
  /\ v_lengths (drain t i n v).2 = v_lengths v
  /\ v_surgeries (drain t i n v).2 = v_surgeries v
  /\ v_next (drain t i n v).2 = v_next v.
Proof.
  revert n v. induction i as [|i IH]; intros n v Hg m; subst m; cbn [drain].
  { cbn [fst snd]. repeat split; try done; lia. }
  destruct (v_queue v) as [|p q] eqn:Hq.
  { cbn [fst snd length]. rewrite Hq. cbn [length].
    repeat split; try done; lia. }
  destruct (good_head _ _ _ Hg Hq) as [at_ Hp]. rewrite Hp.
  destruct (IH (n + 1) _ (good_deq t _ _ at_ _ Hg Hq))
    as (-> & -> & -> & -> & -> & ->).
  cbn [deq v_queue v_waits v_lengths v_surgeries v_next].
  rewrite Hq, length_app. cbn [tail length].
  repeat split; try done; lia.
Qed.

Lemma np_sum_snoc l x : np_sum (l ++ [x]) = np_sum l + x.
Proof. induction l as [|y l IH]; simpl; [lia|]. rewrite IH. lia. Qed.

Section counting.
Variables (a b c : nat).

Let A := Z.of_nat a.
Let B := Z.of_nat b.
Let C := Z.of_nat c.

Lemma after_weeks_fields k :
  let v := after_weeks a b c k in
  v_lengths v = (fun j => qlen_after A B C (S j)) <$> seq 0 k
  /\ v_surgeries v = served_in A B C <$> seq 0 k
  /\ Z.of_nat (length (v_queue v)) = qlen_after A B C k
  /\ Z.of_nat (length (v_waits v)) = np_sum (v_surgeries v)
  /\ v_next v = B + A * Z.of_nat k.
Proof.
  induction k as [|k IH]; cbn zeta.
  { simpl. destruct (enq_n_fields 0 b view0) as (-> & -> & -> & -> & ->).
    simpl. subst B. repeat split; lia. }
  cbn zeta in IH. destruct IH as (Hl & Hs & Hq & Hw & Hn).
  cbn [after_weeks]. rewrite week_eq.
  set (t := 7 * Z.of_nat k). set (v := after_weeks a b c k) in *.
  pose proof (good_enq_n t a v (good_after_weeks a b c k)) as Hg.
  destruct (drain_fields t c 0 _ Hg) as (Hd1 & Hd2 & Hd3 & Hd4 & Hd5 & Hd6).
  destruct (enq_n_fields t a v) as (He1 & He2 & He3 & He4 & He5).
  rewrite He5 in Hd1, Hd2. rewrite He1 in Hd3. rewrite He2 in Hd4.
  rewrite He3 in Hd5. rewrite He4 in Hd6.
  assert ((drain t c 0 (enq_n t a v)).1 = served_in A B C k) as Hserved.
  { rewrite Hd1. unfold served_in. subst A C. lia. }
  cbn [rec_week v_lengths v_surgeries v_queue v_waits v_next].
  rewrite Hd4, Hd5, Hd3, Hd2, Hd6, Hserved, !seq_S, !fmap_app.
  cbn [fmap list_fmap Nat.add]. rewrite Hl, Hs, np_sum_snoc.
  unfold served_in in *. cbn [qlen_after]. subst A C.
  repeat split; try done; try lia.
  - do 2 f_equal. lia.
  - rewrite <- Hs, <- Hw, He5. lia.
Qed.

(** Every patient who entered the queue was operated on or still waits. *)
Lemma conservation k :
  B + A * Z.of_nat k
  = np_sum (served_in A B C <$> seq 0 k) + qlen_after A B C k.
Proof.
  induction k as [|k IH]; [simpl; lia|].
  rewrite seq_S, fmap_app. cbn [fmap list_fmap Nat.add].
  rewrite np_sum_snoc. unfold served_in at 2. cbn [qlen_after]. lia.
Qed.

Lemma qlen_after_nonneg k : 0 <= qlen_after A B C k.
Proof. induction k as [|k IH]; simpl; subst A B C; lia. Qed.
End counting.

(** ** [run_simulation] *)

Lemma read_view h0 v b name :
  let s := py_of h0 v in
  let r := prepare_results b name s in
  read_queue_lengths r s = v_lengths v
  /\ read_surgeries r s = v_surgeries v
  /\ read_wait_times r s = v_waits v.
Proof.
  unfold read_queue_lengths, read_surgeries, read_wait_times, prepare_results,
    py_of; simpl.
  by rewrite load_waits, load_lengths, load_surgeries.
Qed.

Lemma prepare_results_view h0 v b name :
  prepare_results b name (py_of h0 v)
  = Results name
      (match v_waits v with
       | [] => PyInt 0
       | _ => NpMean (np_sum (v_waits v)) (length (v_waits v))
       end)
      (match v_lengths v with
       | [] => b
       | _ => List.last (v_lengths v) 0
       end)
      (np_sum (v_surgeries v))
      (length h0 + 1)%nat (length h0 + 2)%nat (length h0).
Proof.
  unfold prepare_results, py_of; simpl.
  by rewrite load_waits, load_lengths, load_surgeries.
Qed.

(** With a horizon of at least zero weeks the run stops at the until event,
    for every amount of fuel from some bound on. *)
Lemma run_simulation_returns a b c H name s :
  0 <= H ->
  exists N, forall fuel, (N <= fuel)%nat ->
    run_simulation fuel a b c H name s
    = Returned (prepare_results b name (py_of (heap s) (final_view a b c H)))
        (py_of (heap s) (final_view a b c H))
    /\ history fuel (setup a b c H s)
       = rounds (S (Z.to_nat H)) ++ [(H * 7 + 1, StopSimulation)].
Proof.
  intros HH.
  pose proof (run_to_stop a b c H s HH) as Hr.
  apply reaches_fuel in Hr as [N HN]; [|done].
  exists N. intros fuel Hf. destruct (HN fuel Hf) as [Hs Hh].
  unfold run_simulation. by rewrite Hs.
Qed.

(** With a negative horizon [run] raises before the first step. *)
Lemma run_simulation_fails a b c H name s fuel :
  H < 0 ->
  run_simulation fuel a b c H name s
  = Failed ValueError (py_of (heap s) view0)
  /\ history fuel (setup a b c H s) = [].
Proof.
  intros HH. unfold run_simulation. rewrite setup_eq.
  destruct (Z.leb_spec (H * 7 + 1) 0) as [_|?]; [|lia].
  by rewrite steps_halted, history_halted.
Qed.

(** The outcome does not depend on the fuel, once there is one. *)
Lemma run_simulation_returned fuel a b c H name s r s' :
  run_simulation fuel a b c H name s = Returned r s' ->
  0 <= H
  /\ s' = py_of (heap s) (final_view a b c H)
  /\ r = prepare_results b name s'.
Proof.
  intros Hr. destruct (Z.lt_ge_cases H 0) as [Hneg|HH].
  { destruct (run_simulation_fails a b c H name s fuel Hneg) as [Hf _].
    congruence. }
  destruct (run_simulation_returns a b c H name s HH) as [N HN].
  destruct (HN (fuel + N)%nat ltac:(lia)) as [HR _].
  unfold run_simulation in Hr, HR. rewrite steps_add in HR.
  destruct (steps fuel (setup a b c H s)) as [c0|c0|e c0]; try done.
  rewrite steps_halted in HR by done. by simplify_eq.
Qed.

Lemma run_simulation_no_failure fuel a b c H name s e s' :
  0 <= H -> run_simulation fuel a b c H name s <> Failed e s'.
Proof.
  intros HH Hr.
  destruct (run_simulation_returns a b c H name s HH) as [N HN].
  destruct (HN (fuel + N)%nat ltac:(lia)) as [HR _].
  unfold run_simulation in Hr, HR. rewrite steps_add in HR.
  destruct (steps fuel (setup a b c H s)) as [c0|c0|e0 c0]; try done.
  by rewrite steps_halted in HR.
Qed.

(** ** What every step preserves *)

Lemma mstep_shape h0 a b c v e pa po act :
  good v ->
  exists v' e' pa' po' act',
    config_of (mstep (cfg h0 a b c v e pa po act))
    = cfg h0 a b c v' e' pa' po' act'
    /\ good v'.
Proof.
  intros Hg. destruct act as [[|]|].
  - (* patient_arrivals is executing *)
    destruct pa as [|[|i]|[|i]|]; unfold mstep, arrivals_step, cfg; simpl;
      rewrite ?enqueue_patient_view;
      eexists _, _, _, _, _; (split; [reflexivity|]); auto using good_enq.
  - (* operating_room is executing *)
    destruct po as [|[|i] n|n|]; unfold mstep, surgery_step, cfg; simpl;
      rewrite ?record_week_view, ?load_queue;
      try (eexists _, _, _, _, _; (split; [reflexivity|]);
           by auto using good_rec_week).
    destruct (v_queue v) as [|p q] eqn:Hq.
    { eexists _, _, _, _, _; (split; [reflexivity|]); done. }
    destruct (good_head _ _ _ Hg Hq) as [at_ Hp].
    rewrite (serve_patient_view _ _ _ _ _ Hp).
    eexists _, _, _, _, _; (split; [reflexivity|]). by eapply good_deq.
  - (* the scheduler *)
    unfold mstep, env_step, cfg; simpl.
    destruct (queue e) as [|[t p n [[|]|]] rest]; simpl;
      [|destruct pa|destruct po|];
      eexists _, _, _, _, _; (split; [reflexivity|]); done.
Qed.

Lemma steps_shape h0 a b c n st :
  (exists v e pa po act, config_of st = cfg h0 a b c v e pa po act /\ good v) ->
  exists v e pa po act,
    config_of (steps n st) = cfg h0 a b c v e pa po act /\ good v.
Proof.
  revert st. induction n as [|n IH]; intros st Hst; [done|].
  destruct st as [c0| |]; simpl; [|done..].
  apply IH. destruct Hst as (v & e & pa & po & act & Hc & Hg).
  simpl in Hc. subst c0. by apply mstep_shape.
Qed.

Lemma setup_shape a b c H s :
  exists e,
    config_of (setup a b c H s)
    = cfg (heap s) a b c view0 e A_created O_created None.
Proof.
  rewrite setup_eq. destruct (H * 7 + 1 <=? 0); by eexists.
Qed.

(** ** The identifiers handed out *)

Lemma issued_step c0 :
  match issued c0 with
  | Some i =>
      i = next_patient_id (py c0) + 1
      /\ next_patient_id (py (config_of (mstep c0))) = i
  | None =>
      next_patient_id (py (config_of (mstep c0))) = next_patient_id (py c0)
  end.
Proof.
  destruct c0 as [s e [a b q pa] [c q' po] act].
  unfold issued, mstep; simpl. destruct act as [[|]|]; simpl.
  - unfold arrivals_step; simpl. by destruct pa as [|[|i]|[|i]|].
  - unfold surgery_step; simpl. destruct po as [|[|i] n|n|]; simpl; try done.
    destruct (load (heap s) q') as [|p l]; simpl; [done|].
    unfold serve_patient; simpl.
    by destruct (patient_arrival_times s !! p).
  - unfold env_step; simpl.
    destruct (queue e) as [|[t p n [[|]|]] rest]; simpl; try done.
    + by destruct pa.
    + by destruct po.
Qed.

Lemma issued_ids_seq n st :
  exists m,
    issued_ids n st
    = (fun j => next_patient_id (py (config_of st)) + 1 + Z.of_nat j) <$> seq 0 m.
Proof.
  revert st. induction n as [|n IH]; intros st; [by exists 0%nat|].
  destruct st as [c0| |]; simpl; try (by exists 0%nat).
  destruct (IH (mstep c0)) as [m Hm]. rewrite Hm.
  pose proof (issued_step c0) as Hi.
  destruct (issued c0) as [i|]; simpl.
  - destruct Hi as [-> ->]. exists (S m). simpl. f_equal; [lia|].
    rewrite <- fmap_S_seq, <- list_fmap_compose.
    apply list_fmap_ext. intros _ j _. simpl. lia.
  - rewrite Hi. by exists m.
Qed.

Lemma seq_strongly_sorted (x : Z) s m :
  StronglySorted Z.lt ((fun j => x + Z.of_nat j) <$> seq s m).
Proof.
  revert s. induction m as [|m IH]; intros s; simpl; constructor; [apply IH|].
  apply Forall_fmap, Forall_forall. intros j [Hj _]%elem_of_seq. simpl. lia.
Qed.

(** ** The result of a run, in the terms of the recurrence *)

Lemma range_nonneg n : 0 <= n -> Z.of_nat (range n) = n.
Proof. unfold range. lia. Qed.

Lemma range_nonpos n : n <= 0 -> range n = 0%nat.
Proof. unfold range. lia. Qed.

Lemma lookup_weeks {X} (f : nat -> X) K k x :
  (f <$> seq 0 K) !! k = Some x -> (k < K)%nat /\ x = f k.
Proof.
  rewrite list_lookup_fmap. intros Hx.
  destruct (seq 0 K !! k) as [j|] eqn:Hj; [|done].
  apply lookup_seq in Hj as [-> ?]. simpl in Hx. by simplify_eq.
Qed.

Lemma last_weeks (f : nat -> Z) K d :
  List.last (f <$> seq 0 (S K)) d = f K.
Proof. rewrite seq_S, fmap_app. simpl. apply last_last. Qed.

Lemma final_length_weeks (f : nat -> Z) K b :
  match f <$> seq 0 (S K) with
  | [] => b
  | _ => List.last (f <$> seq 0 (S K)) 0
  end = f K.
Proof.
  rewrite last_weeks, seq_S, fmap_app.
  by destruct (f <$> seq 0 K).
Qed.

(** The run over [H >= 0] weeks returns, and what it returns is read off the
    final view. *)
Lemma run_result a b c H name s :
  0 <= H ->
  exists N, forall fuel, (N <= fuel)%nat ->
    exists r s',
      run_simulation fuel a b c H name s = Returned r s'
      /\ read_queue_lengths r s' = v_lengths (final_view a b c H)
      /\ read_surgeries r s' = v_surgeries (final_view a b c H)
      /\ read_wait_times r s' = v_waits (final_view a b c H)
      /\ total_surgeries r = np_sum (v_surgeries (final_view a b c H))
      /\ final_queue_length r
         = match v_lengths (final_view a b c H) with
           | [] => b
           | _ => List.last (v_lengths (final_view a b c H)) 0
           end
      /\ avg_wait_time r
         = match v_waits (final_view a b c H) with
           | [] => PyInt 0
           | _ => NpMean (np_sum (v_waits (final_view a b c H)))
                    (length (v_waits (final_view a b c H)))
           end.
Proof.
  intros HH. destruct (run_simulation_returns a b c H name s HH) as [N HN].
  exists N. intros fuel Hf. destruct (HN fuel Hf) as [Hr _].
  eexists _, _. split; [exact Hr|].
  destruct (read_view (heap s) (final_view a b c H) b name) as (-> & -> & ->).
  rewrite prepare_results_view. done.
Qed.

(** Whatever fuel made the run return, it returned the same. *)
Lemma returned_result fuel a b c H name s r s' :
  run_simulation fuel a b c H name s = Returned r s' ->
  0 <= H
  /\ read_queue_lengths r s' = v_lengths (final_view a b c H)
  /\ read_surgeries r s' = v_surgeries (final_view a b c H)
  /\ read_wait_times r s' = v_waits (final_view a b c H)
  /\ total_surgeries r = np_sum (v_surgeries (final_view a b c H)).
Proof.
  intros Hr. apply run_simulation_returned in Hr as (HH & Hs & Hr).
  subst r s'. split; [done|].
  destruct (read_view (heap s) (final_view a b c H) b name) as (-> & -> & ->).
  by rewrite prepare_results_view.
Qed.

(** * The claims *)

(** C1.  In every run that respects the input contract (a non-negative number
    of arrivals per week, a horizon of at least zero weeks), one record is
    made per service round, and for every period index [k >= 1] the recorded
    queue length is the previous recorded length plus the weekly arrivals
    minus the surgeries recorded for [k]; the surgeries of period [k] never
    exceed the previous length plus the arrivals. *)
Theorem C1_queue_length_balance a b c H name s :
  0 <= a -> 0 <= H ->
  exists N, forall fuel, (N <= fuel)%nat ->
    exists r s',
      run_simulation fuel a b c H name s = Returned r s'
      /\ length (read_queue_lengths r s') = S (Z.to_nat H)
      /\ length (read_surgeries r s') = S (Z.to_nat H)
      /\ forall k prev cur served,
           (1 <= k)%nat ->
           read_queue_lengths r s' !! (k - 1)%nat = Some prev ->
           read_queue_lengths r s' !! k = Some cur ->
           read_surgeries r s' !! k = Some served ->
           cur = prev + a - served /\ served <= prev + a.
Proof.
  intros Ha HH. destruct (run_result a b c H name s HH) as [N HN].
  exists N. intros fuel Hf.
  destruct (HN fuel Hf) as (r & s' & Hr & Hl & Hs & _).
  exists r, s'. split; [done|]. rewrite Hl, Hs. unfold final_view.
  destruct (after_weeks_fields (range a) (range b) (range c) (S (Z.to_nat H)))
    as (-> & -> & _).
  rewrite !length_fmap, !length_seq. split; [done|]. split; [done|].
  intros k prev cur served Hk Hprev Hcur Hserved.
  apply lookup_weeks in Hprev as [_ ->].
  apply lookup_weeks in Hcur as [_ ->].
  apply lookup_weeks in Hserved as [_ ->].
  replace (S (k - 1)) with k by lia.
  unfold served_in. cbn [qlen_after]. rewrite (range_nonneg a Ha). lia.
Qed.

Lemma C1_queue_length_balance_witness :
  0 <= 15 /\ 0 <= 4
  /\ exists N, forall fuel, (N <= fuel)%nat ->
       exists r s',
         run_simulation fuel 15 0 10 4 "Scenario" module_init = Returned r s'
         /\ length (read_queue_lengths r s') = S (Z.to_nat 4)
         /\ length (read_surgeries r s') = S (Z.to_nat 4)
         /\ forall k prev cur served,
              (1 <= k)%nat ->
              read_queue_lengths r s' !! (k - 1)%nat = Some prev ->
              read_queue_lengths r s' !! k = Some cur ->
              read_surgeries r s' !! k = Some served ->
              cur = prev + 15 - served /\ served <= prev + 15.
Proof.
  split; [lia|]. split; [lia|].
  apply (C1_queue_length_balance 15 0 10 4 "Scenario" module_init); lia.
Defined.

Lemma lookup_weeks_lt {X} (f : nat -> X) K k :
  (k < K)%nat -> (f <$> seq 0 K) !! k = Some (f k).
Proof. intros Hk. by rewrite list_lookup_fmap, lookup_seq_lt. Qed.

Lemma rounds_before k :
  Forall (fun ev => ev.1 < 7 * Z.of_nat k /\ ev.2 <> StopSimulation) (rounds k).
Proof.
  induction k as [|k IH]; [constructor|].
  rewrite rounds_S. apply Forall_app. split.
  - eapply Forall_impl; [exact IH|]. simpl. intros ev [? ?]. split; [lia|done].
  - repeat constructor; simpl; try lia; done.
Qed.

(** C2.  In every period the arrival process is resumed before the service
    process at the same clock value (0, 7, ..., 7 * H), and the service round
    of period [k] serves up to its capacity out of the previous queue length
    plus the batch of period [k]: the batch is in the queue when the round
    drains it. *)
Theorem C2_arrivals_before_service a b c H name s :
  0 <= a -> 0 <= b -> 0 <= c -> 0 <= H ->
  exists N, forall fuel, (N <= fuel)%nat ->
    history fuel (setup a b c H s)
    = flat_map (fun j => [(7 * Z.of_nat j, Resume Patient_arrivals);
                          (7 * Z.of_nat j, Resume Operating_room)])
        (seq 0 (S (Z.to_nat H)))
      ++ [(H * 7 + 1, StopSimulation)]
    /\ exists r s',
         run_simulation fuel a b c H name s = Returned r s'
         /\ forall k served,
              read_surgeries r s' !! k = Some served ->
              served
              = Z.min c (match k with
                         | O => b
                         | S k' => default 0 (read_queue_lengths r s' !! k')
                         end + a).
Proof.
  intros Ha Hb Hc HH.
  destruct (run_simulation_returns a b c H name s HH) as [N HN].
  exists N. intros fuel Hf. destruct (HN fuel Hf) as [Hr Hh].
  split; [exact Hh|]. eexists _, _. split; [exact Hr|].
  destruct (read_view (heap s) (final_view a b c H) b name) as (-> & -> & _).
  unfold final_view.
  destruct (after_weeks_fields (range a) (range b) (range c) (S (Z.to_nat H)))
    as (-> & -> & _).
  intros k served [Hk ->]%lookup_weeks. unfold served_in.
  rewrite (range_nonneg a Ha), (range_nonneg b Hb), (range_nonneg c Hc).
  destruct k as [|k']; [done|].
  by rewrite lookup_weeks_lt by lia.
Qed.

Lemma C2_arrivals_before_service_witness :
  0 <= 10 /\ 0 <= 0 /\ 0 <= 10 /\ 0 <= 3
  /\ exists N, forall fuel, (N <= fuel)%nat ->
       history fuel (setup 10 0 10 3 module_init)
       = flat_map (fun j => [(7 * Z.of_nat j, Resume Patient_arrivals);
                             (7 * Z.of_nat j, Resume Operating_room)])
           (seq 0 (S (Z.to_nat 3)))
         ++ [(3 * 7 + 1, StopSimulation)]
       /\ exists r s',
            run_simulation fuel 10 0 10 3 "Scenario" module_init = Returned r s'
            /\ forall k served,
                 read_surgeries r s' !! k = Some served ->
                 served
                 = Z.min 10 (match k with
                             | O => 0
                             | S k' => default 0 (read_queue_lengths r s' !! k')
                             end + 10).
Proof.
  repeat (split; [lia|]).
  apply (C2_arrivals_before_service 10 0 10 3 "Scenario" module_init); lia.
Defined.

(** C3, as the code has it.  With no arrivals, 50 patients waiting, 12 slots
    a week and a duration of 5 weeks, the round at time 0 and the rounds at the
    five week boundaries make six records: the queue lengths are
    38, 26, 14, 2, 0, 0, the surgeries 12, 12, 12, 12, 2, 0 (the fifth round
    serves the last 2 patients, the sixth none), and 50 patients are served
    in total. *)
Theorem C3_backlog_drain :
  exists N, forall fuel, (N <= fuel)%nat ->
    exists r s',
      run_simulation fuel 0 50 12 5 "Scenario" module_init = Returned r s'
      /\ read_queue_lengths r s' = [38; 26; 14; 2; 0; 0]
      /\ read_surgeries r s' = [12; 12; 12; 12; 2; 0]
      /\ total_surgeries r = 50
      /\ final_queue_length r = 0.
Proof.
  destruct (run_result 0 50 12 5 "Scenario" module_init ltac:(lia)) as [N HN].
  exists N. intros fuel Hf.
  destruct (HN fuel Hf) as (r & s' & Hr & Hl & Hs & _ & Ht & Hq & _).
  exists r, s'. split; [exact Hr|]. rewrite Hl, Hs, Ht, Hq.
  clear. vm_compute. repeat split; reflexivity.
Qed.

(** C3, as the specification words it, fails: no run of this scenario returns
    the five queue lengths 38, 26, 14, 2, 0. *)
Lemma C3_counterexample :
  ~ exists fuel r s',
      run_simulation fuel 0 50 12 5 "Scenario" module_init = Returned r s'
      /\ read_queue_lengths r s' = [38; 26; 14; 2; 0].
Proof.
  intros (fuel & r & s' & Hr & Hl).
  apply returned_result in Hr as (_ & Hq & _).
  rewrite Hq in Hl. clear -Hl. vm_compute in Hl. discriminate.
Qed.

(** C4.  Every run over a positive number of weeks stops.  The clock then
    reads [H * 7 + 1]; one record was made per round; the last event before
    the stop is the service round at time [H * 7], every earlier event lies at
    or before that time, and the stop is the last event of all. *)
Theorem C4_run_stops_after_last_round a b c H name s :
  0 < H ->
  exists N, forall fuel, (N <= fuel)%nat ->
    (exists r s',
       run_simulation fuel a b c H name s = Returned r s'
       /\ length (read_queue_lengths r s') = S (Z.to_nat H))
    /\ (exists cf,
          steps fuel (setup a b c H s) = Stopped cf
          /\ now (env cf) = H * 7 + 1)
    /\ (exists earlier,
          history fuel (setup a b c H s)
          = earlier ++ [(H * 7, Resume Operating_room);
                        (H * 7 + 1, StopSimulation)]
          /\ Forall (fun ev => ev.1 <= H * 7 /\ ev.2 <> StopSimulation) earlier).
Proof.
  intros HH. assert (0 <= H) as HH0 by lia.
  pose proof (run_to_stop a b c H s HH0) as Hstop.
  apply reaches_fuel in Hstop as [N1 HN1]; [|done].
  destruct (run_result a b c H name s HH0) as [N2 HN2].
  exists (N1 + N2)%nat. intros fuel Hf.
  destruct (HN1 fuel ltac:(lia)) as [Hs Hh].
  destruct (HN2 fuel ltac:(lia)) as (r & s' & Hr & Hl & _).
  split; [|split].
  - exists r, s'. split; [done|]. rewrite Hl. unfold final_view.
    destruct (after_weeks_fields (range a) (range b) (range c)
                (S (Z.to_nat H))) as (-> & _).
    by rewrite length_fmap, length_seq.
  - eexists. split; [exact Hs|]. done.
  - exists (rounds (Z.to_nat H)
            ++ [(7 * Z.of_nat (Z.to_nat H), Resume Patient_arrivals)]).
    split.
    + rewrite Hh, rounds_S, <- !app_assoc. simpl.
      do 4 f_equal; lia.
    + apply Forall_app. split.
      * eapply Forall_impl; [apply rounds_before|].
        simpl. intros ev [? ?]. split; [lia|done].
      * repeat constructor; simpl; [lia|done].
Qed.

Lemma C4_run_stops_after_last_round_witness :
  0 < 2
  /\ exists N, forall fuel, (N <= fuel)%nat ->
       (exists r s',
          run_simulation fuel 3 4 2 2 "Scenario" module_init = Returned r s'
          /\ length (read_queue_lengths r s') = S (Z.to_nat 2))
       /\ (exists cf,
             steps fuel (setup 3 4 2 2 module_init) = Stopped cf
             /\ now (env cf) = 2 * 7 + 1)
       /\ (exists earlier,
             history fuel (setup 3 4 2 2 module_init)
             = earlier ++ [(2 * 7, Resume Operating_room);
                           (2 * 7 + 1, StopSimulation)]
             /\ Forall (fun ev => ev.1 <= 2 * 7 /\ ev.2 <> StopSimulation)
                  earlier).
Proof.
  split; [lia|].
  apply (C4_run_stops_after_last_round 3 4 2 2 "Scenario" module_init); lia.
Defined.

(** C5, as the code has it.  A negative horizon is refused by the scheduler
    before any event is processed: [run] raises ValueError.  A horizon of
    zero or more weeks is never refused: the run returns, whatever the other
    arguments are. *)
Theorem C5_horizon_check a b c H name s :
  (H < 0 ->
   forall fuel,
     (exists s', run_simulation fuel a b c H name s = Failed ValueError s')
     /\ history fuel (setup a b c H s) = [])
  /\ (0 <= H ->
      (forall fuel e s', run_simulation fuel a b c H name s <> Failed e s')
      /\ exists N, forall fuel, (N <= fuel)%nat ->
           exists r s', run_simulation fuel a b c H name s = Returned r s').
Proof.
  split.
  - intros HH fuel.
    destruct (run_simulation_fails a b c H name s fuel HH) as [Hf Hh].
    split; [by eexists|done].
  - intros HH. split.
    + intros fuel e s'. by apply run_simulation_no_failure.
    + destruct (run_simulation_returns a b c H name s HH) as [N HN].
      exists N. intros fuel Hf. destruct (HN fuel Hf) as [Hr _].
      by eexists _, _.
Qed.

Lemma C5_horizon_check_witness :
  (forall fuel,
     (exists s', run_simulation fuel 15 150 12 (-1) "Scenario" module_init
                 = Failed ValueError s')
     /\ history fuel (setup 15 150 12 (-1) module_init) = [])
  /\ (forall fuel e s',
        run_simulation fuel 15 150 12 0 "Scenario" module_init <> Failed e s')
  /\ exists N, forall fuel, (N <= fuel)%nat ->
        exists r s',
          run_simulation fuel 15 150 12 0 "Scenario" module_init
          = Returned r s'.
Proof.
  split.
  - apply (C5_horizon_check 15 150 12 (-1) "Scenario" module_init). lia.
  - apply (C5_horizon_check 15 150 12 0 "Scenario" module_init). lia.
Defined.

(** C5, as the specification words it, fails for a horizon of zero weeks:
    the run is not refused, it makes the round at time 0 and returns. *)
Lemma C5_counterexample :
  (exists r s',
     run_simulation 40 15 0 10 0 "Scenario" module_init = Returned r s'
     /\ read_queue_lengths r s' = [5]
     /\ read_surgeries r s' = [10])
  /\ ~ exists fuel e s',
         run_simulation fuel 15 0 10 0 "Scenario" module_init = Failed e s'.
Proof.
  split.
  - eexists _, _. split; [by vm_compute|]. split; by vm_compute.
  - intros (fuel & e & s' & Hf).
    by apply run_simulation_no_failure in Hf.
Qed.

(** C6.  [run_simulation] starts every run with the counter at zero, whatever
    the module held before.  The identifiers returned by [get_patient_id]
    during any prefix of a run are 1, 2, ..., m in call order: each one is
    greater than all returned before it in that run, and the sequence does
    not depend on earlier runs. *)
Theorem C6_fresh_patient_ids a b c H s n :
  next_patient_id (py (config_of (setup a b c H s))) = 0
  /\ StronglySorted Z.lt (issued_ids n (setup a b c H s))
  /\ exists m, issued_ids n (setup a b c H s) = Z.of_nat <$> seq 1 m.
Proof.
  assert (next_patient_id (py (config_of (setup a b c H s))) = 0) as H0.
  { destruct (setup_shape a b c H s) as [e ->]. done. }
  destruct (issued_ids_seq n (setup a b c H s)) as [m Hm].
  rewrite H0 in Hm. split; [done|]. rewrite Hm. split.
  - apply (seq_strongly_sorted (0 + 1)).
  - exists m. rewrite <- fmap_S_seq, <- list_fmap_compose.
    apply list_fmap_ext. intros _ j _. simpl. lia.
Qed.

Example issued_ids_small :
  issued_ids 100 (setup 2 1 1 1 module_init) = [1; 2; 3; 4; 5].
Proof. by vm_compute. Qed.

(** ** Two runs in a row *)

(** What a returned dictionary shows depends on the view alone. *)
Lemma contents_view h0 v b name :
  contents (prepare_results b name (py_of h0 v)) (py_of h0 v)
  = (name,
     match v_waits v with
     | [] => PyInt 0
     | _ => NpMean (np_sum (v_waits v)) (length (v_waits v))
     end,
     match v_lengths v with
     | [] => b
     | _ => List.last (v_lengths v) 0
     end,
     np_sum (v_surgeries v), v_lengths v, v_surgeries v, v_waits v).
Proof.
  unfold contents.
  destruct (read_view h0 v b name) as (-> & -> & ->).
  by rewrite prepare_results_view.
Qed.

(** A later run leaves the lists of an earlier dictionary as they were: it
    appends to objects of its own. *)
Lemma contents_frame h0 v b name v' :
  contents (prepare_results b name (py_of h0 v))
    (py_of (heap (py_of h0 v)) v')
  = contents (prepare_results b name (py_of h0 v)) (py_of h0 v).
Proof.
  unfold contents, read_queue_lengths, read_surgeries, read_wait_times.
  rewrite prepare_results_view; simpl.
  rewrite !(load_below (h0 ++ _)) by (rewrite length_app; simpl; lia).
  done.
Qed.

(** C7.  Two calls in a row, the second started in the module state the
    first one left, return what isolated calls with the same arguments
    return; the dictionary of the first call still shows the same after the
    second call; with identical arguments both dictionaries are equal. *)
Theorem C7_runs_are_isolated a b c1 c2 H name1 name2 s :
  0 <= H ->
  exists N, forall f1 f2 g1 g2,
    (N <= f1)%nat -> (N <= f2)%nat -> (N <= g1)%nat -> (N <= g2)%nat ->
    exists r1 s1 r2 s2 i1 t1 i2 t2,
      run_simulation f1 a b c1 H name1 s = Returned r1 s1
      /\ run_simulation f2 a b c2 H name2 s1 = Returned r2 s2
      /\ run_simulation g1 a b c1 H name1 module_init = Returned i1 t1
      /\ run_simulation g2 a b c2 H name2 module_init = Returned i2 t2
      /\ contents r1 s1 = contents i1 t1
      /\ contents r1 s2 = contents i1 t1
      /\ contents r2 s2 = contents i2 t2
      /\ (c1 = c2 -> name1 = name2 -> contents r1 s2 = contents r2 s2).
Proof.
  intros HH.
  set (v1 := final_view a b c1 H). set (v2 := final_view a b c2 H).
  destruct (run_simulation_returns a b c1 H name1 s HH) as [N1 HN1].
  destruct (run_simulation_returns a b c2 H name2
              (py_of (heap s) v1) HH) as [N2 HN2].
  destruct (run_simulation_returns a b c1 H name1 module_init HH) as [M1 HM1].
  destruct (run_simulation_returns a b c2 H name2 module_init HH) as [M2 HM2].
  exists (N1 + N2 + M1 + M2)%nat. intros f1 f2 g1 g2 Hf1 Hf2 Hg1 Hg2.
  destruct (HN1 f1 ltac:(lia)) as [Hr1 _].
  destruct (HN2 f2 ltac:(lia)) as [Hr2 _].
  destruct (HM1 g1 ltac:(lia)) as [Hi1 _].
  destruct (HM2 g2 ltac:(lia)) as [Hi2 _].
  eexists _, _, _, _, _, _, _, _.
  split; [exact Hr1|]. split; [exact Hr2|].
  split; [exact Hi1|]. split; [exact Hi2|].
  fold v1 v2. rewrite contents_frame, !contents_view.
  repeat split; try done.
  intros -> ->. done.
Qed.

Lemma C7_runs_are_isolated_witness :
  0 <= 26
  /\ exists N, forall f1 f2 g1 g2,
       (N <= f1)%nat -> (N <= f2)%nat -> (N <= g1)%nat -> (N <= g2)%nat ->
       exists r1 s1 r2 s2 i1 t1 i2 t2,
         run_simulation f1 15 150 12 26 "Baseline" module_init = Returned r1 s1
         /\ run_simulation f2 15 150 14 26 "Intervention" s1 = Returned r2 s2
         /\ run_simulation g1 15 150 12 26 "Baseline" module_init
            = Returned i1 t1
         /\ run_simulation g2 15 150 14 26 "Intervention" module_init
            = Returned i2 t2
         /\ contents r1 s1 = contents i1 t1
         /\ contents r1 s2 = contents i1 t1
         /\ contents r2 s2 = contents i2 t2
         /\ (12 = 14 -> "Baseline"%string = "Intervention"%string ->
             contents r1 s2 = contents r2 s2).
Proof.
  split; [lia|].
  apply (C7_runs_are_isolated 15 150 12 14 26 "Baseline" "Intervention"
           module_init).
  lia.
Defined.

Lemma sorted_NoDup (l : list Z) : StronglySorted Z.lt l -> NoDup l.
Proof.
  induction 1 as [|x l Hs IH Hx]; constructor; [|done].
  intros Hin. rewrite Forall_forall in Hx. specialize (Hx _ Hin). lia.
Qed.

(** C8.  After any number of steps of a run, counted in loop iterations of
    the two processes and events of the scheduler, both processes hold the
    same queue, no identifier is in it twice, and the identifiers in it are
    exactly the keys of the arrival-time map. *)
Theorem C8_queue_matches_arrival_times a b c H s n :
  let cf := config_of (steps n (setup a b c H s)) in
  let q := load (heap (py cf)) (pa_patient_queue_list (arrivals cf)) in
  or_patient_queue_list (surgery cf) = pa_patient_queue_list (arrivals cf)
  /\ NoDup q
  /\ dom (patient_arrival_times (py cf)) = list_to_set q.
Proof.
  destruct (steps_shape (heap s) a b c n (setup a b c H s))
    as (v & e & pa & po & act & -> & [Hs Hi Ht]).
  { destruct (setup_shape a b c H s) as [e He].
    exists view0, e, A_created, O_created, None.
    split; [done|apply good_view0]. }
  cbn zeta. simpl. rewrite load_queue.
  split; [done|]. split; [by apply sorted_NoDup|done].
Qed.

Lemma no_slots_no_surgery (a b : nat) K :
  np_sum (served_in (Z.of_nat a) (Z.of_nat b) (Z.of_nat 0) <$> seq 0 K) = 0.
Proof.
  induction K as [|K IH]; [reflexivity|].
  rewrite seq_S, fmap_app. cbn [fmap list_fmap Nat.add].
  rewrite np_sum_snoc, IH. unfold served_in.
  pose proof (qlen_after_nonneg a b 0 K). lia.
Qed.

(** C9.  A run over zero or more weeks returns; when no waiting time was
    recorded, the mean it reports is the integer 0; with no slots at all no
    patient is served, no waiting time is recorded, and the run still
    returns. *)
Theorem C9_mean_wait_of_no_waits a b c H name s :
  0 <= H ->
  exists N, forall fuel, (N <= fuel)%nat ->
    exists r s',
      run_simulation fuel a b c H name s = Returned r s'
      /\ (read_wait_times r s' = [] -> avg_wait_time r = PyInt 0)
      /\ (c <= 0 ->
          read_wait_times r s' = [] /\ total_surgeries r = 0
          /\ avg_wait_time r = PyInt 0).
Proof.
  intros HH. destruct (run_result a b c H name s HH) as [N HN].
  exists N. intros fuel Hf.
  destruct (HN fuel Hf) as (r & s' & Hr & _ & _ & Hw & Ht & _ & Ha).
  exists r, s'. split; [done|]. rewrite Hw, Ht, Ha.
  split; [by intros ->|]. intros Hc. unfold final_view.
  rewrite (range_nonpos c Hc).
  destruct (after_weeks_fields (range a) (range b) 0 (S (Z.to_nat H)))
    as (_ & Hs & _ & Hlen & _).
  assert (np_sum (v_surgeries (after_weeks (range a) (range b) 0
                                 (S (Z.to_nat H)))) = 0) as Hsum.
  { rewrite Hs. apply no_slots_no_surgery. }
  rewrite Hsum in Hlen |- *. clear -Hlen.
  destruct (v_waits _); [done|simpl in Hlen; lia].
Qed.

Lemma C9_mean_wait_of_no_waits_witness :
  0 <= 3
  /\ exists N, forall fuel, (N <= fuel)%nat ->
       exists r s',
         run_simulation fuel 5 2 0 3 "Scenario" module_init = Returned r s'
         /\ (read_wait_times r s' = [] -> avg_wait_time r = PyInt 0)
         /\ (0 <= 0 ->
             read_wait_times r s' = [] /\ total_surgeries r = 0
             /\ avg_wait_time r = PyInt 0).
Proof.
  split; [lia|].
  apply (C9_mean_wait_of_no_waits 5 2 0 3 "Scenario" module_init). lia.
Defined.

(** C10.  In every run that respects the input contract, the initial queue
    plus the weekly arrivals times the number of period records equals the
    total of surgeries plus the final queue length, and the total of
    surgeries is the number of recorded waiting times. *)
Theorem C10_patient_conservation a b c H name s :
  0 <= a -> 0 <= b -> 0 <= H ->
  exists N, forall fuel, (N <= fuel)%nat ->
    exists r s',
      run_simulation fuel a b c H name s = Returned r s'
      /\ b + a * Z.of_nat (length (read_queue_lengths r s'))
         = total_surgeries r + final_queue_length r
      /\ total_surgeries r = Z.of_nat (length (read_wait_times r s')).
Proof.
  intros Ha Hb HH. destruct (run_result a b c H name s HH) as [N HN].
  exists N. intros fuel Hf.
  destruct (HN fuel Hf) as (r & s' & Hr & Hl & _ & Hw & Ht & Hq & _).
  exists r, s'. split; [done|]. rewrite Hl, Hw, Ht, Hq. unfold final_view.
  destruct (after_weeks_fields (range a) (range b) (range c) (S (Z.to_nat H)))
    as (-> & Hs & _ & -> & _).
  rewrite Hs, length_fmap, length_seq, final_length_weeks.
  pose proof (conservation (range a) (range b) (range c) (S (Z.to_nat H)))
    as Hc.
  rewrite (range_nonneg a Ha), (range_nonneg b Hb) in *.
  split; [exact Hc|done].
Qed.

Lemma C10_patient_conservation_witness :
  0 <= 15 /\ 0 <= 150 /\ 0 <= 26
  /\ exists N, forall fuel, (N <= fuel)%nat ->
       exists r s',
         run_simulation fuel 15 150 12 26 "Scenario" module_init = Returned r s'
         /\ 150 + 15 * Z.of_nat (length (read_queue_lengths r s'))
            = total_surgeries r + final_queue_length r
         /\ total_surgeries r = Z.of_nat (length (read_wait_times r s')).
Proof.
  repeat (split; [lia|]).
  apply (C10_patient_conservation 15 150 12 26 "Scenario" module_init); lia.
Defined.

(** * Beyond the claims *)

(** ** The closed form of the weekly recurrence *)

Lemma qlen_after_closed A B C k :
  0 <= A -> 0 <= B -> 0 <= C ->
  qlen_after A B C k = Z.max 0 (B + Z.of_nat k * (A - C)).
Proof.
  intros HA HB HC. induction k as [|k IH]; [simpl; lia|].
  cbn [qlen_after]. rewrite IH.
  replace (Z.of_nat (S k) * (A - C))
    with (Z.of_nat k * (A - C) + (A - C)) by lia.
  destruct (Z.le_gt_cases C A) as [Hle|Hgt].
  - assert (0 <= Z.of_nat k * (A - C)) by (apply Z.mul_nonneg_nonneg; lia).
    lia.
  - lia.
Qed.

Lemma served_in_closed A B C k :
  0 <= A -> 0 <= B -> 0 <= C ->
  served_in A B C k
  = Z.max 0 (B + Z.of_nat k * (A - C)) + A
    - Z.max 0 (B + Z.of_nat (S k) * (A - C)).
Proof.
  intros HA HB HC. rewrite <- !qlen_after_closed by done.
  unfold served_in. cbn [qlen_after]. lia.
Qed.

(** The records of a returned run, week by week, for inputs within the
    contract. *)
Lemma run_weeks a b c H name s :
  0 <= a -> 0 <= b -> 0 <= c -> 0 <= H ->
  exists N, forall fuel, (N <= fuel)%nat ->
    exists r s',
      run_simulation fuel a b c H name s = Returned r s'
      /\ read_queue_lengths r s'
         = (fun j => qlen_after a b c (S j)) <$> seq 0 (S (Z.to_nat H))
      /\ read_surgeries r s' = served_in a b c <$> seq 0 (S (Z.to_nat H))
      /\ total_surgeries r
         = np_sum (served_in a b c <$> seq 0 (S (Z.to_nat H)))
      /\ final_queue_length r = qlen_after a b c (S (Z.to_nat H)).
Proof.
  intros Ha Hb Hc HH. destruct (run_result a b c H name s HH) as [N HN].
  exists N. intros fuel Hf.
  destruct (HN fuel Hf) as (r & s' & Hr & Hl & Hs & _ & Ht & Hq & _).
  exists r, s'. split; [done|]. rewrite Hl, Hs, Ht, Hq. unfold final_view.
  destruct (after_weeks_fields (range a) (range b) (range c) (S (Z.to_nat H)))
    as (-> & -> & _).
  rewrite final_length_weeks.
  by rewrite (range_nonneg a Ha), (range_nonneg b Hb), (range_nonneg c Hc).
Qed.

(** X1.  For inputs within the contract the recorded queue length of week
    [k] is [max 0 (b + (k + 1) * (a - c))]; the final queue length is that
    value for the last week, and the total of surgeries is what came in minus
    what is left. *)
Theorem X1_queue_length_closed_form a b c H name s :
  0 <= a -> 0 <= b -> 0 <= c -> 0 <= H ->
  exists N, forall fuel, (N <= fuel)%nat ->
    exists r s',
      run_simulation fuel a b c H name s = Returned r s'
      /\ (forall k x,
            read_queue_lengths r s' !! k = Some x ->
            x = Z.max 0 (b + (Z.of_nat k + 1) * (a - c)))
      /\ final_queue_length r = Z.max 0 (b + (H + 1) * (a - c))
      /\ total_surgeries r = b + (H + 1) * a - final_queue_length r.
Proof.
  intros Ha Hb Hc HH. destruct (run_weeks a b c H name s Ha Hb Hc HH) as [N HN].
  exists N. intros fuel Hf.
  destruct (HN fuel Hf) as (r & s' & Hr & Hl & _ & Ht & Hq).
  exists r, s'. split; [done|]. rewrite Hl, Ht, Hq.
  pose proof (conservation (range a) (range b) (range c) (S (Z.to_nat H)))
    as Hcons.
  rewrite (range_nonneg a Ha), (range_nonneg b Hb), (range_nonneg c Hc)
    in Hcons.
  rewrite !qlen_after_closed in * by done.
  replace (Z.of_nat (S (Z.to_nat H))) with (H + 1) in * by lia.
  split; [|split; [done|lia]].
  intros k x [_ ->]%lookup_weeks. rewrite qlen_after_closed by done.
  do 2 f_equal. lia.
Qed.

Lemma X1_queue_length_closed_form_witness :
  0 <= 15 /\ 0 <= 150 /\ 0 <= 12 /\ 0 <= 26
  /\ exists N, forall fuel, (N <= fuel)%nat ->
       exists r s',
         run_simulation fuel 15 150 12 26 "Scenario" module_init = Returned r s'
         /\ (forall k x,
               read_queue_lengths r s' !! k = Some x ->
               x = Z.max 0 (150 + (Z.of_nat k + 1) * (15 - 12)))
         /\ final_queue_length r = Z.max 0 (150 + (26 + 1) * (15 - 12))
         /\ total_surgeries r = 150 + (26 + 1) * 15 - final_queue_length r.
Proof.
  repeat (split; [lia|]).
  apply (X1_queue_length_closed_form 15 150 12 26 "Scenario" module_init); lia.
Defined.

(** X2.  No week has more surgeries than slots, and none has fewer unless
    the queue ran empty in that week: unused slots are not carried over. *)
Theorem X2_surgeries_within_slots a b c H name s :
  0 <= c -> 0 <= H ->
  exists N, forall fuel, (N <= fuel)%nat ->
    exists r s',
      run_simulation fuel a b c H name s = Returned r s'
      /\ forall k served len,
           read_surgeries r s' !! k = Some served ->
           read_queue_lengths r s' !! k = Some len ->
           0 <= served <= c /\ (served < c -> len = 0).
Proof.
  intros Hc HH. destruct (run_result a b c H name s HH) as [N HN].
  exists N. intros fuel Hf.
  destruct (HN fuel Hf) as (r & s' & Hr & Hl & Hs & _).
  exists r, s'. split; [done|]. rewrite Hl, Hs. unfold final_view.
  destruct (after_weeks_fields (range a) (range b) (range c) (S (Z.to_nat H)))
    as (-> & -> & _).
  intros k served len [_ ->]%lookup_weeks [_ ->]%lookup_weeks.
  unfold served_in. cbn [qlen_after].
  pose proof (qlen_after_nonneg (range a) (range b) (range c) k).
  rewrite (range_nonneg c Hc) in *. lia.
Qed.

Lemma X2_surgeries_within_slots_witness :
  0 <= 12 /\ 0 <= 5
  /\ exists N, forall fuel, (N <= fuel)%nat ->
       exists r s',
         run_simulation fuel 0 50 12 5 "Scenario" module_init = Returned r s'
         /\ forall k served len,
              read_surgeries r s' !! k = Some served ->
              read_queue_lengths r s' !! k = Some len ->
              0 <= served <= 12 /\ (served < 12 -> len = 0).
Proof.
  repeat (split; [lia|]).
  apply (X2_surgeries_within_slots 0 50 12 5 "Scenario" module_init); lia.
Defined.

(** ** What the message boxes of the web form promise *)

Lemma qlen_after_nonneg_Z A B C k :
  0 <= A -> 0 <= B -> 0 <= C -> 0 <= qlen_after A B C k.
Proof. intros. rewrite qlen_after_closed by done. lia. Qed.

Lemma capacity_summary_spec a c :
  match capacity_summary a c with
  | St_warning => c < a
  | St_success => a < c
  | St_info => a = c
  end.
Proof.
  unfold capacity_summary. rewrite Z.gtb_ltb.
  destruct (Z.ltb_spec c a); [done|].
  destruct (Z.ltb_spec a c); [done|lia].
Qed.



(** X4.  When the form reports that the slots just cover the arrivals, the
    simulated queue stays at its initial length in every week, and each week
    serves exactly as many patients as arrive. *)
Theorem X4_info_means_constant_queue a b c H name s :
  capacity_summary a c = St_info ->
  0 <= a -> 0 <= b -> 0 <= H ->
  exists N, forall fuel, (N <= fuel)%nat ->
    exists r s',
      run_simulation fuel a b c H name s = Returned r s'
      /\ (forall k x, read_queue_lengths r s' !! k = Some x -> x = b)
      /\ (forall k served,
            read_surgeries r s' !! k = Some served -> served = a)
      /\ final_queue_length r = b.
Proof.
  intros Hsum Ha Hb HH. pose proof (capacity_summary_spec a c) as Hac.
  rewrite Hsum in Hac. subst c.
  destruct (run_weeks a b a H name s Ha Hb Ha HH) as [N HN].
  exists N. intros fuel Hf.
  destruct (HN fuel Hf) as (r & s' & Hr & Hl & Hs & _ & Hq).
  exists r, s'. split; [done|]. rewrite Hl, Hs, Hq.
  assert (forall k, qlen_after a b a k = b) as Hconst.
  { intros k. rewrite qlen_after_closed by done. lia. }
  split; [|split].
  - intros k x [_ ->]%lookup_weeks. apply Hconst.
  - intros k served [_ ->]%lookup_weeks. unfold served_in.
    rewrite Hconst. lia.
  - apply Hconst.
Qed.

Lemma X4_info_means_constant_queue_witness :
  capacity_summary 12 12 = St_info /\ 0 <= 12 /\ 0 <= 150 /\ 0 <= 26
  /\ exists N, forall fuel, (N <= fuel)%nat ->
       exists r s',
         run_simulation fuel 12 150 12 26 "Scenario" module_init = Returned r s'
         /\ (forall k x, read_queue_lengths r s' !! k = Some x -> x = 150)
         /\ (forall k served,
               read_surgeries r s' !! k = Some served -> served = 12)
         /\ final_queue_length r = 150.
Proof.
  split; [reflexivity|]. repeat (split; [lia|]).
  apply (X4_info_means_constant_queue 12 150 12 26 "Scenario" module_init);
    [reflexivity|lia..].
Defined.

(** X5.  When the form reports that the slots cover the arrivals and drain
    the queue, the simulated queue never grows from one week to the next and
    never exceeds its initial length, an empty queue stays empty, and the
    queue is empty at the end once the surplus [c - a] of all rounds reaches
    the initial length. *)
Theorem X5_success_means_draining a b c H name s :
  capacity_summary a c = St_success ->
  0 <= a -> 0 <= b -> 0 <= H ->
  exists N, forall fuel, (N <= fuel)%nat ->
    exists r s',
      run_simulation fuel a b c H name s = Returned r s'
      /\ (forall k x, read_queue_lengths r s' !! k = Some x -> 0 <= x <= b)
      /\ (forall k x y,
            read_queue_lengths r s' !! k = Some x ->
            read_queue_lengths r s' !! S k = Some y ->
            y <= x /\ (x = 0 -> y = 0))
      /\ (b <= (H + 1) * (c - a) -> final_queue_length r = 0).
Proof.
  intros Hsum Ha Hb HH. pose proof (capacity_summary_spec a c) as Hac.
  rewrite Hsum in Hac. assert (0 <= c) as Hc by lia.
  destruct (run_weeks a b c H name s Ha Hb Hc HH) as [N HN].
  exists N. intros fuel Hf.
  destruct (HN fuel Hf) as (r & s' & Hr & Hl & Hs & _ & Hq).
  exists r, s'. split; [done|]. rewrite Hl, Hq.
  split; [|split].
  - intros k x [_ ->]%lookup_weeks. split; [by apply qlen_after_nonneg_Z|].
    rewrite qlen_after_closed by done.
    assert (0 <= Z.of_nat (S k) * (c - a)) by (apply Z.mul_nonneg_nonneg; lia).
    lia.
  - intros k x y [_ ->]%lookup_weeks [_ ->]%lookup_weeks.
    pose proof (qlen_after_nonneg_Z a b c (S k) Ha Hb Hc).
    cbn [qlen_after] in *. lia.
  - intros Hdrain. rewrite qlen_after_closed by done.
    replace (Z.of_nat (S (Z.to_nat H))) with (H + 1) by lia. lia.
Qed.

Lemma X5_success_means_draining_witness :
  capacity_summary 15 17 = St_success /\ 0 <= 15 /\ 0 <= 40 /\ 0 <= 26
  /\ exists N, forall fuel, (N <= fuel)%nat ->
       exists r s',
         run_simulation fuel 15 40 17 26 "Scenario" module_init = Returned r s'
         /\ (forall k x,
               read_queue_lengths r s' !! k = Some x -> 0 <= x <= 40)
         /\ (forall k x y,
               read_queue_lengths r s' !! k = Some x ->
               read_queue_lengths r s' !! S k = Some y ->
               y <= x /\ (x = 0 -> y = 0))
         /\ (40 <= (26 + 1) * (17 - 15) -> final_queue_length r = 0).
Proof.
  split; [reflexivity|]. repeat (split; [lia|]).
  apply (X5_success_means_draining 15 40 17 26 "Scenario" module_init);
    [reflexivity|lia..].
Defined.

(** ** Baseline and intervention, one after the other *)

Lemma read_frame h0 v b name v' :
  let r := prepare_results b name (py_of h0 v) in
  let s2 := py_of (heap (py_of h0 v)) v' in
  read_queue_lengths r s2 = v_lengths v
  /\ read_surgeries r s2 = v_surgeries v
  /\ read_wait_times r s2 = v_waits v.
Proof.
  cbn zeta. unfold read_queue_lengths, read_surgeries, read_wait_times.
  rewrite prepare_results_view; simpl.
  rewrite !(load_below (h0 ++ _)) by (rewrite length_app; simpl; lia).
  by rewrite load_waits, load_lengths, load_surgeries.
Qed.

(** Both runs return, and after the second run both dictionaries show the
    final views of their own scenarios. *)
Lemma scenarios_result a c b c' H s :
  0 <= H ->
  exists N, forall fuel, (N <= fuel)%nat ->
    exists rb ri s2,
      run_scenarios fuel a c b c' H s = Compared rb ri s2
      /\ (read_queue_lengths rb s2 = v_lengths (final_view a b c H)
          /\ read_surgeries rb s2 = v_surgeries (final_view a b c H)
          /\ read_wait_times rb s2 = v_waits (final_view a b c H)
          /\ total_surgeries rb = np_sum (v_surgeries (final_view a b c H)))
      /\ (read_queue_lengths ri s2 = v_lengths (final_view a b c' H)
          /\ read_surgeries ri s2 = v_surgeries (final_view a b c' H)
          /\ read_wait_times ri s2 = v_waits (final_view a b c' H)
          /\ total_surgeries ri = np_sum (v_surgeries (final_view a b c' H))).
Proof.
  intros HH.
  destruct (run_simulation_returns a b c H (baseline_name c) s HH)
    as [N1 HN1].
  destruct (run_simulation_returns a b c' H (intervention_name c')
              (py_of (heap s) (final_view a b c H)) HH) as [N2 HN2].
  exists (N1 + N2)%nat. intros fuel Hf.
  destruct (HN1 fuel ltac:(lia)) as [Hr1 _].
  destruct (HN2 fuel ltac:(lia)) as [Hr2 _].
  unfold run_scenarios. rewrite Hr1, Hr2. eexists _, _, _.
  split; [reflexivity|]. split.
  - destruct (read_frame (heap s) (final_view a b c H) b (baseline_name c)
                (final_view a b c' H)) as (-> & -> & ->).
    by rewrite prepare_results_view.
  - destruct (read_view (heap (py_of (heap s) (final_view a b c H)))
                (final_view a b c' H) b (intervention_name c'))
      as (-> & -> & ->).
    by rewrite prepare_results_view.
Qed.

Lemma final_view_weeks a b c H :
  0 <= a -> 0 <= b -> 0 <= c ->
  v_lengths (final_view a b c H)
  = (fun j => qlen_after a b c (S j)) <$> seq 0 (S (Z.to_nat H))
  /\ v_surgeries (final_view a b c H)
     = served_in a b c <$> seq 0 (S (Z.to_nat H)).
Proof.
  intros Ha Hb Hc. unfold final_view.
  destruct (after_weeks_fields (range a) (range b) (range c) (S (Z.to_nat H)))
    as (-> & -> & _).
  by rewrite (range_nonneg a Ha), (range_nonneg b Hb), (range_nonneg c Hc).
Qed.

Lemma np_sum_served a b c k :
  np_sum (served_in a b c <$> seq 0 k)
  = b + a * Z.of_nat k - qlen_after a b c k.
Proof.
  induction k as [|k IH]; [simpl; lia|].
  rewrite seq_S, fmap_app. cbn [fmap list_fmap Nat.add].
  rewrite np_sum_snoc, IH. unfold served_in. cbn [qlen_after]. lia.
Qed.

(** X6.  Adding slots, as the first kind of intervention does, never makes a
    week's queue longer than in the baseline, never leaves a longer final
    queue, and never performs fewer surgeries in total. *)
Theorem X6_more_slots_never_hurt a c b additional_slots H s :
  0 <= a -> 0 <= b -> 0 <= c -> 0 <= additional_slots -> 0 <= H ->
  exists N, forall fuel, (N <= fuel)%nat ->
    exists rb ri s2,
      run_scenarios fuel a c b
        (intervention_slots c (Add_slots additional_slots)) H s
      = Compared rb ri s2
      /\ (forall k x y,
            read_queue_lengths rb s2 !! k = Some x ->
            read_queue_lengths ri s2 !! k = Some y ->
            y <= x)
      /\ total_surgeries rb <= total_surgeries ri.
Proof.
  intros Ha Hb Hc Hn HH. cbn [intervention_slots].
  destruct (scenarios_result a c b (c + additional_slots) H s HH) as [N HN].
  exists N. intros fuel Hf.
  destruct (HN fuel Hf)
    as (rb & ri & s2 & Hr & (Hl1 & _ & _ & Ht1) & (Hl2 & _ & _ & Ht2)).
  exists rb, ri, s2. split; [done|]. rewrite Hl1, Hl2, Ht1, Ht2.
  destruct (final_view_weeks a b c H Ha Hb Hc) as [-> ->].
  destruct (final_view_weeks a b (c + additional_slots) H Ha Hb ltac:(lia))
    as [-> ->].
  assert (forall k, qlen_after a b (c + additional_slots) k
                    <= qlen_after a b c k) as Hle.
  { intros k. rewrite !qlen_after_closed by lia.
    assert (0 <= Z.of_nat k * additional_slots)
      by (apply Z.mul_nonneg_nonneg; lia).
    lia. }
  split.
  - intros k x y [_ ->]%lookup_weeks [_ ->]%lookup_weeks. apply Hle.
  - rewrite !np_sum_served. specialize (Hle (S (Z.to_nat H))). lia.
Qed.

Lemma X6_more_slots_never_hurt_witness :
  0 <= 15 /\ 0 <= 150 /\ 0 <= 12 /\ 0 <= 2 /\ 0 <= 26
  /\ exists N, forall fuel, (N <= fuel)%nat ->
       exists rb ri s2,
         run_scenarios fuel 15 12 150 (intervention_slots 12 (Add_slots 2)) 26
           module_init
         = Compared rb ri s2
         /\ (forall k x y,
               read_queue_lengths rb s2 !! k = Some x ->
               read_queue_lengths ri s2 !! k = Some y ->
               y <= x)
         /\ total_surgeries rb <= total_surgeries ri.
Proof.
  repeat (split; [lia|]).
  apply (X6_more_slots_never_hurt 15 12 150 2 26 module_init); lia.
Defined.

(** ** The graphs *)

Lemma np_arange_weeks n :
  np_arange 1 (Z.of_nat n + 1) = Z.of_nat <$> seq 1 n.
Proof.
  unfold np_arange. replace (Z.to_nat (Z.of_nat n + 1 - 1)) with n by lia.
  rewrite <- fmap_S_seq, <- list_fmap_compose.
  apply list_fmap_ext. intros _ j _. simpl. lia.
Qed.

Lemma length_cumsum_from acc l : length (cumsum_from acc l) = length l.
Proof. revert acc. induction l as [|x l IH]; intros acc; simpl; auto. Qed.

Lemma last_cumsum_from acc l :
  l <> [] -> last (cumsum_from acc l) = Some (acc + np_sum l).
Proof.
  revert acc. induction l as [|x l IH]; intros acc Hl; [done|].
  destruct l as [|y l]; [simpl; f_equal; lia|].
  change (cumsum_from acc (x :: y :: l))
    with ((acc + x) :: cumsum_from (acc + x) (y :: l)).
  change (last ((acc + x) :: cumsum_from (acc + x) (y :: l)))
    with (last (cumsum_from (acc + x) (y :: l))).
  rewrite IH by done. f_equal. simpl. lia.
Qed.

Lemma plot_ok x y :
  length x = length y -> plot x y = Some (zip x y).
Proof. intros Hl. unfold plot. by rewrite decide_True. Qed.

Lemma plot_mismatch x y :
  length x <> length y -> plot x y = None.
Proof. intros Hl. unfold plot. by rewrite decide_False. Qed.

(** X7.  After the two runs both [main]s make, [create_graphs] draws its
    figure: no [plot] is refused, because both runs made one record per
    round of the same duration.  Every line has the weeks 1, ..., H + 1 on
    its x axis, and each cumulative line ends at the total of surgeries its
    scenario reports. *)
Theorem X7_graphs_are_drawn a c b c' H s :
  0 <= H ->
  exists N, forall fuel, (N <= fuel)%nat ->
    exists rb ri s2 fig,
      run_scenarios fuel a c b c' H s = Compared rb ri s2
      /\ create_graphs rb ri s2 = Some fig
      /\ Forall (fun line => line.*1 = Z.of_nat <$> seq 1 (S (Z.to_nat H)))
           [(queue_length_lines fig).1; (queue_length_lines fig).2;
            (weekly_surgery_lines fig).1; (weekly_surgery_lines fig).2;
            (cumulative_lines fig).1; (cumulative_lines fig).2]
      /\ (queue_length_lines fig).1.*2 = read_queue_lengths rb s2
      /\ (queue_length_lines fig).2.*2 = read_queue_lengths ri s2
      /\ last ((cumulative_lines fig).1.*2) = Some (total_surgeries rb)
      /\ last ((cumulative_lines fig).2.*2) = Some (total_surgeries ri).
Proof.
  intros HH. destruct (scenarios_result a c b c' H s HH) as [N HN].
  exists N. intros fuel Hf.
  destruct (HN fuel Hf)
    as (rb & ri & s2 & Hr & (Hl1 & Hs1 & _ & Ht1) & (Hl2 & Hs2 & _ & Ht2)).
  assert (forall x, length (v_lengths (final_view a b x H)) = S (Z.to_nat H)
                    /\ length (v_surgeries (final_view a b x H))
                       = S (Z.to_nat H)) as Hlen.
  { intros x. unfold final_view.
    destruct (after_weeks_fields (range a) (range b) (range x)
                (S (Z.to_nat H))) as (-> & -> & _).
    by rewrite !length_fmap, !length_seq. }
  destruct (Hlen c) as [Hlb Hsb]. destruct (Hlen c') as [Hli Hsi].
  rewrite <- Hl1 in Hlb. rewrite <- Hs1 in Hsb.
  rewrite <- Hl2 in Hli. rewrite <- Hs2 in Hsi.
  set (weeks := Z.of_nat <$> seq 1 (S (Z.to_nat H))).
  assert (length weeks = S (Z.to_nat H)) as Hw
      by (unfold weeks; by rewrite length_fmap, length_seq).
  eexists rb, ri, s2, _. split; [done|].
  unfold create_graphs. rewrite Hlb, np_arange_weeks. fold weeks.
  rewrite !plot_ok
    by (rewrite ?length_cumsum_from; unfold np_cumsum;
        rewrite ?length_cumsum_from; congruence).
  split; [reflexivity|]. cbn [queue_length_lines weekly_surgery_lines
                               cumulative_lines fst snd].
  split.
  { repeat constructor; apply fst_zip;
      unfold np_cumsum; rewrite ?length_cumsum_from; lia. }
  rewrite !snd_zip
    by (unfold np_cumsum; rewrite ?length_cumsum_from; lia).
  split; [done|]. split; [done|].
  unfold np_cumsum. rewrite !last_cumsum_from.
  - rewrite Ht1, Ht2, Hs1, Hs2. done.
  - intros E. rewrite E in Hsi. done.
  - intros E. rewrite E in Hsb. done.
Qed.

Lemma X7_graphs_are_drawn_witness :
  0 <= 26
  /\ exists N, forall fuel, (N <= fuel)%nat ->
       exists rb ri s2 fig,
         run_scenarios fuel 15 12 150 14 26 module_init = Compared rb ri s2
         /\ create_graphs rb ri s2 = Some fig
         /\ Forall (fun line => line.*1 = Z.of_nat <$> seq 1 (S (Z.to_nat 26)))
              [(queue_length_lines fig).1; (queue_length_lines fig).2;
               (weekly_surgery_lines fig).1; (weekly_surgery_lines fig).2;
               (cumulative_lines fig).1; (cumulative_lines fig).2]
         /\ (queue_length_lines fig).1.*2 = read_queue_lengths rb s2
         /\ (queue_length_lines fig).2.*2 = read_queue_lengths ri s2
         /\ last ((cumulative_lines fig).1.*2) = Some (total_surgeries rb)
         /\ last ((cumulative_lines fig).2.*2) = Some (total_surgeries ri).
Proof.
  split; [lia|].
  apply (X7_graphs_are_drawn 15 12 150 14 26 module_init). lia.
Defined.

(** ** First come, first served *)

(** What one machine step does to the view. *)
Lemma mstep_view h0 a b c v e pa po act :
  good v ->
  exists v' e' pa' po' act',
    config_of (mstep (cfg h0 a b c v e pa po act))
    = cfg h0 a b c v' e' pa' po' act'
    /\ (v' = v
        \/ (exists t, v' = enq t v)
        \/ (exists t p q at_,
              v_queue v = p :: q /\ v_times v !! p = Some at_
              /\ v' = deq t p at_ v)
        \/ (exists n, v' = rec_week n v)).
Proof.
  intros Hg. destruct act as [[|]|].
  - destruct pa as [|[|i]|[|i]|]; unfold mstep, arrivals_step, cfg; simpl;
      rewrite ?enqueue_patient_view;
      eexists _, _, _, _, _; (split; [reflexivity|]);
      first [by left | right; left; by eexists].
  - destruct po as [|[|i] n|n|]; unfold mstep, surgery_step, cfg; simpl;
      rewrite ?record_week_view, ?load_queue;
      try (eexists _, _, _, _, _; (split; [reflexivity|]);
           first [by left | do 3 right; by eexists]).
    destruct (v_queue v) as [|p q] eqn:Hq.
    { eexists _, _, _, _, _; (split; [reflexivity|]); by left. }
    destruct (good_head _ _ _ Hg Hq) as [at_ Hp].
    rewrite (serve_patient_view _ _ _ _ _ Hp).
    eexists _, _, _, _, _; (split; [reflexivity|]).
    do 2 right; left. by eexists _, _, _, _.
  - unfold mstep, env_step, cfg; simpl.
    destruct (queue e) as [|[t p n [[|]|]] rest]; simpl;
      [|destruct pa|destruct po|];
      eexists _, _, _, _, _; (split; [reflexivity|]); by left.
Qed.

(** A property of views that the three loop bodies keep holds at every
    step of a run. *)
Lemma steps_view_invariant (P : view -> Prop) a b c H s n :
  P view0 ->
  (forall t v, good v -> P v -> P (enq t v)) ->
  (forall t p q at_ v,
     good v -> P v -> v_queue v = p :: q -> v_times v !! p = Some at_ ->
     P (deq t p at_ v)) ->
  (forall k v, good v -> P v -> P (rec_week k v)) ->
  exists v e pa po act,
    config_of (steps n (setup a b c H s)) = cfg (heap s) a b c v e pa po act
    /\ good v /\ P v.
Proof.
  intros P0 Penq Pdeq Prec.
  assert (forall st,
            (exists v e pa po act,
               config_of st = cfg (heap s) a b c v e pa po act
               /\ good v /\ P v) ->
            exists v e pa po act,
              config_of (steps n st) = cfg (heap s) a b c v e pa po act
              /\ good v /\ P v) as Hsteps.
  { induction n as [|n IH]; intros st Hst; [done|].
    destruct st as [c0| |]; simpl; [|done..].
    apply IH. destruct Hst as (v & e & pa & po & act & Hc & Hg & HP).
    simpl in Hc. subst c0.
    destruct (mstep_view (heap s) a b c v e pa po act Hg)
      as (v' & e' & pa' & po' & act' & Hm & Hv).
    exists v', e', pa', po', act'. split; [done|].
    destruct Hv as [->|[[t ->]|[(t & p & q & at_ & Hq & Hp & ->)|[k ->]]]].
    - done.
    - split; [by apply good_enq|by apply Penq].
    - split; [by eapply good_deq|by eapply Pdeq].
    - split; [by apply good_rec_week|by apply Prec]. }
  apply Hsteps. destruct (setup_shape a b c H s) as [e He].
  exists view0, e, A_created, O_created, None.
  split; [done|]. split; [apply good_view0|done].
Qed.

Lemma fifo_enq t v : fifo v -> fifo (enq t v).
Proof.
  intros [Hq Hn]. unfold fifo. simpl. rewrite length_app. simpl.
  rewrite Nat.add_1_r, seq_S, fmap_app. simpl. rewrite <- Hq.
  split; [f_equal; f_equal; lia|lia].
Qed.

Lemma fifo_deq t p q at_ v :
  fifo v -> v_queue v = p :: q -> fifo (deq t p at_ v).
Proof.
  intros [Hq Hn] Hv. unfold fifo. simpl. rewrite Hv in *. simpl in *.
  rewrite length_app. simpl. injection Hq as _ Hq.
  split; [|lia]. rewrite Hq at 1.
  rewrite <- fmap_S_seq, <- list_fmap_compose.
  apply list_fmap_ext. intros _ j _. simpl. lia.
Qed.

(** X8.  At every step of a run the queue holds exactly the identifiers
    after the served ones, in increasing order: with [w] waiting times
    recorded it is [w + 1, ..., next_patient_id].  Patients are served in
    the order they were enqueued, and none is skipped. *)
Theorem X8_first_come_first_served a b c H s n :
  let cf := config_of (steps n (setup a b c H s)) in
  let waiting := load (heap (py cf)) (pa_patient_queue_list (arrivals cf)) in
  let served :=
    Z.of_nat (length (load (heap (py cf)) (patient_wait_times (py cf)))) in
  waiting = (fun j => served + 1 + Z.of_nat j) <$> seq 0 (length waiting)
  /\ next_patient_id (py cf) = served + Z.of_nat (length waiting).
Proof.
  destruct (steps_view_invariant fifo a b c H s n)
    as (v & e & pa & po & act & -> & _ & Hq & Hn).
  - by split.
  - intros t v _. apply fifo_enq.
  - intros t p q at_ v _ Hf Hv _. by eapply fifo_deq.
  - by intros k v _ [? ?].
  - cbn zeta. simpl. by rewrite load_queue, load_waits.
Qed.

Example first_come_first_served_midway :
  let cf := config_of (steps 30 (setup 3 4 2 2 module_init)) in
  load (heap (py cf)) (pa_patient_queue_list (arrivals cf))
  = [5; 6; 7; 8; 9; 10; 11; 12; 13]
  /\ load (heap (py cf)) (patient_wait_times (py cf)) = [0; 0; 7; 7].
Proof. by vm_compute. Qed.

(** ** Waiting times *)

Lemma whole_weeks_mono m m' x : m <= m' -> whole_weeks m x -> whole_weeks m' x.
Proof. intros Hm (j & -> & Hj). exists j. split; [done|lia]. Qed.

Lemma timed_mono m m' v : m <= m' -> timed m v -> timed m' v.
Proof.
  intros Hm [Ht Hw]. split.
  - eapply map_Forall_impl; [exact Ht|]. intros ? x. by apply whole_weeks_mono.
  - eapply Forall_impl; [exact Hw|]. intros x. by apply whole_weeks_mono.
Qed.

Lemma timed_enq m t v : whole_weeks m t -> timed m v -> timed m (enq t v).
Proof.
  intros Ht [Hm Hw]. split; [|done]. simpl. by apply map_Forall_insert_2.
Qed.

Lemma timed_enq_n m t i v :
  whole_weeks m t -> timed m v -> timed m (enq_n t i v).
Proof. revert v. induction i; simpl; auto using timed_enq. Qed.

(** A patient served at the clock value [7 * m] has waited a whole number of
    weeks, between 0 and [m]. *)
Lemma timed_deq m p at_ v :
  timed m v -> v_times v !! p = Some at_ -> timed m (deq (7 * m) p at_ v).
Proof.
  intros [Hm Hw] Hp. split; simpl.
  - by apply map_Forall_delete.
  - apply Forall_app. split; [done|]. repeat constructor.
    destruct (Hm p at_ Hp) as (j & -> & Hj).
    exists (m - j). split; lia.
Qed.

Lemma timed_drain m i n v : timed m v -> timed m (drain (7 * m) i n v).2.
Proof.
  revert n v. induction i as [|i IH]; intros n v Ht; simpl; [done|].
  destruct (v_queue v) as [|p q]; [done|].
  destruct (v_times v !! p) as [at_|] eqn:Hp; [|done].
  apply IH. by apply timed_deq.
Qed.

Lemma timed_after_weeks a b c k :
  timed (Z.of_nat (pred k)) (after_weeks a b c k).
Proof.
  induction k as [|k IH]; cbn [after_weeks].
  - apply timed_enq_n; [exists 0; simpl; lia|].
    split; [apply map_Forall_empty|constructor].
  - rewrite week_eq. cbn [pred].
    destruct (drain (7 * Z.of_nat k) c 0 (enq_n (7 * Z.of_nat k) a
                                           (after_weeks a b c k)))
      as [n v'] eqn:Hd.
    assert (timed (Z.of_nat k) v') as [Ht Hw].
    { replace v' with (drain (7 * Z.of_nat k) c 0
                         (enq_n (7 * Z.of_nat k) a (after_weeks a b c k))).2
        by (by rewrite Hd).
      apply timed_drain, timed_enq_n; [exists (Z.of_nat k); lia|].
      eapply timed_mono; [|exact IH]. lia. }
    by split.
Qed.

(** X9.  Every waiting time a run records is a whole number of weeks in
    days, not negative and not longer than the duration of the run. *)
Theorem X9_waits_are_whole_weeks a b c H name s :
  0 <= H ->
  exists N, forall fuel, (N <= fuel)%nat ->
    exists r s',
      run_simulation fuel a b c H name s = Returned r s'
      /\ Forall (fun wait_time =>
                   exists weeks, wait_time = 7 * weeks /\ 0 <= weeks <= H)
           (read_wait_times r s').
Proof.
  intros HH. destruct (run_result a b c H name s HH) as [N HN].
  exists N. intros fuel Hf.
  destruct (HN fuel Hf) as (r & s' & Hr & _ & _ & Hw & _).
  exists r, s'. split; [done|]. rewrite Hw. unfold final_view.
  destruct (timed_after_weeks (range a) (range b) (range c) (S (Z.to_nat H)))
    as [_ Hwaits].
  eapply Forall_impl; [exact Hwaits|].
  intros x (j & -> & Hj). exists j. simpl in Hj. split; [done|lia].
Qed.

Lemma X9_waits_are_whole_weeks_witness :
  0 <= 5
  /\ exists N, forall fuel, (N <= fuel)%nat ->
       exists r s',
         run_simulation fuel 0 50 12 5 "Scenario" module_init = Returned r s'
         /\ Forall (fun wait_time =>
                      exists weeks, wait_time = 7 * weeks /\ 0 <= weeks <= 5)
              (read_wait_times r s').
Proof.
  split; [lia|].
  apply (X9_waits_are_whole_weeks 0 50 12 5 "Scenario" module_init). lia.
Defined.

(** ** Inputs outside the contract *)

Lemma final_view_clamp a b c H :
  final_view (Z.max 0 a) (Z.max 0 b) (Z.max 0 c) H = final_view a b c H.
Proof.
  unfold final_view, range.
  by replace (Z.to_nat (Z.max 0 a)) with (Z.to_nat a) by lia;
     replace (Z.to_nat (Z.max 0 b)) with (Z.to_nat b) by lia;
     replace (Z.to_nat (Z.max 0 c)) with (Z.to_nat c) by lia.
Qed.

(** X10.  A negative number of weekly arrivals, of patients in the initial
    queue or of weekly slots acts as zero: the run returns the same
    dictionary as with the negative values replaced by 0. *)
Theorem X10_negative_counts_as_zero a b c H name s :
  0 <= H ->
  exists N, forall fuel, (N <= fuel)%nat ->
    exists r s' r0 s0,
      run_simulation fuel a b c H name s = Returned r s'
      /\ run_simulation fuel (Z.max 0 a) (Z.max 0 b) (Z.max 0 c) H name s
         = Returned r0 s0
      /\ contents r s' = contents r0 s0.
Proof.
  intros HH.
  destruct (run_result a b c H name s HH) as [N1 HN1].
  destruct (run_result (Z.max 0 a) (Z.max 0 b) (Z.max 0 c) H name s HH)
    as [N2 HN2].
  exists (N1 + N2)%nat. intros fuel Hf.
  destruct (HN1 fuel ltac:(lia))
    as (r & s' & Hr & Hl & Hs & Hw & Ht & Hq & Ha).
  destruct (HN2 fuel ltac:(lia))
    as (r0 & s0 & Hr0 & Hl0 & Hs0 & Hw0 & Ht0 & Hq0 & Ha0).
  exists r, s', r0, s0. split; [done|]. split; [done|].
  rewrite final_view_clamp in *.
  assert (scenario_name r = scenario_name r0) as Hname.
  { apply run_simulation_returned in Hr as (_ & _ & ->).
    by apply run_simulation_returned in Hr0 as (_ & _ & ->). }
  assert (final_queue_length r = final_queue_length r0) as Hfinal.
  { rewrite Hq, Hq0. unfold final_view.
    destruct (after_weeks_fields (range a) (range b) (range c)
                (S (Z.to_nat H))) as (-> & _).
    by rewrite !final_length_weeks. }
  unfold contents.
  by rewrite Hname, Ha, Ha0, Hfinal, Ht, Ht0, Hl, Hl0, Hs, Hs0, Hw, Hw0.
Qed.

Lemma X10_negative_counts_as_zero_witness :
  0 <= 3
  /\ exists N, forall fuel, (N <= fuel)%nat ->
       exists r s' r0 s0,
         run_simulation fuel (-4) 20 (-1) 3 "Scenario" module_init
         = Returned r s'
         /\ run_simulation fuel (Z.max 0 (-4)) (Z.max 0 20) (Z.max 0 (-1)) 3
              "Scenario" module_init
            = Returned r0 s0
         /\ contents r s' = contents r0 s0.
Proof.
  split; [lia|].
  apply (X10_negative_counts_as_zero (-4) 20 (-1) 3 "Scenario" module_init).
  lia.
Defined.

(** ** What a run leaves in the module *)

(** X11.  After a run has returned, the global arrival-time map holds one
    entry for each patient still waiting and nothing else: its size is the
    final queue length the run reports, and the counter stands at the number
    of patients the run created, the served ones plus the waiting ones. *)
Theorem X11_leftover_arrival_times a b c H name s :
  0 <= H ->
  exists N, forall fuel, (N <= fuel)%nat ->
    exists r s',
      run_simulation fuel a b c H name s = Returned r s'
      /\ Z.of_nat (size (patient_arrival_times s')) = final_queue_length r
      /\ next_patient_id s' = total_surgeries r + final_queue_length r.
Proof.
  intros HH. destruct (run_result a b c H name s HH) as [N HN].
  exists N. intros fuel Hf.
  destruct (HN fuel Hf) as (r & s' & Hr & _ & _ & _ & Ht & Hq & _).
  exists r, s'. split; [done|]. rewrite Ht, Hq.
  apply run_simulation_returned in Hr as (_ & -> & _).
  unfold final_view, py_of. cbn [patient_arrival_times next_patient_id].
  pose proof (good_after_weeks (range a) (range b) (range c)
                (S (Z.to_nat H))) as [Hsorted _ Hdom].
  destruct (after_weeks_fields (range a) (range b) (range c) (S (Z.to_nat H)))
    as (Hl & Hs & Hlen & _ & Hnext).
  rewrite Hl, Hs, Hnext, final_length_weeks, <- Hlen.
  pose proof (conservation (range a) (range b) (range c) (S (Z.to_nat H)))
    as Hcons.
  split; [|rewrite <- Hlen in Hcons; lia].
  f_equal. rewrite <- size_dom, Hdom.
  apply size_list_to_set, sorted_NoDup, Hsorted.
Qed.

Lemma X11_leftover_arrival_times_witness :
  0 <= 4
  /\ exists N, forall fuel, (N <= fuel)%nat ->
       exists r s',
         run_simulation fuel 15 0 10 4 "Scenario" module_init = Returned r s'
         /\ Z.of_nat (size (patient_arrival_times s')) = final_queue_length r
         /\ next_patient_id s' = total_surgeries r + final_queue_length r.
Proof.
  split; [lia|].
  apply (X11_leftover_arrival_times 15 0 10 4 "Scenario" module_init). lia.
Defined.
